(** * Metrics layer of the paper-trading dashboard

    A shallow embedding of [src/data_loader.py] (class
    [DashboardDataLoader]) and [src/metrics.py] (class [DashboardMetrics]),
    followed by the properties of the metrics they compute.

    Numbers.  Python and numpy floats are modelled as exact rationals
    extended with the three IEEE special values the code relies on (the
    [float('inf')] sentinel, the infinities and NaN that numpy produces when
    dividing by zero, and the NaN that pandas returns for the standard
    deviation of fewer than two observations).  Rounding, overflow and the
    sign of zero are not modelled: what is proved of a quantity is proved of
    its exact value.  The two primitives with irrational results, [np.sqrt]
    and the power operator, are parameters of the development: nothing is
    assumed about them unless a lemma says so.  Where two computations are
    compared bit for bit (the two maximum drawdowns), they are embedded a
    second time on binary64 numbers, in [Binary64].

    Files.  The JSON files under [data/paper_trading] are arguments, given
    as what [json.load] returns for them: an absent file is [None], and the
    frames returned by [get_equity_curve] and [get_trade_history] are passed
    as the lists of their rows.  A file that exists and does not parse, or
    whose fields have another type than the one declared here (a [null]
    cash, a P&L that is a string), makes [json.load] or the first operation
    on the field raise where the code has no [try]; such a file is outside
    the argument types, and a property below speaks of the records a
    function returns, not of whether it returns on every file. *)

From Stdlib Require Import QArith Qabs Qminmax ZArith String List Bool Lia Lqa.
From Stdlib Require Import Sorted Permutation.
From Stdlib Require Floats Uint63.
Import ListNotations.
Local Open Scope string_scope.
Local Open Scope Q_scope.

(** ** Python values *)

Module Py.

(** A float: a finite value or one of the IEEE special values. *)
Inductive pyfloat : Type :=
  | Fin (q : Q)
  | PInf
  | NInf
  | NaN.

Definition is_nan (x : pyfloat) : bool :=
  match x with NaN => true | _ => false end.

Definition is_finite (x : pyfloat) : bool :=
  match x with Fin _ => true | _ => false end.

(** Two floats denote the same value. *)
Definition feq (x y : pyfloat) : Prop :=
  match x, y with
  | Fin a, Fin b => a == b
  | PInf, PInf | NInf, NInf | NaN, NaN => True
  | _, _ => False
  end.

Definition inf_of_sign (c : comparison) : pyfloat :=
  match c with Gt => PInf | Lt => NInf | Eq => NaN end.

Definition fneg (x : pyfloat) : pyfloat :=
  match x with
  | Fin a => Fin (- a)
  | PInf => NInf
  | NInf => PInf
  | NaN => NaN
  end.

Definition fadd (x y : pyfloat) : pyfloat :=
  match x, y with
  | NaN, _ | _, NaN => NaN
  | Fin a, Fin b => Fin (a + b)
  | PInf, NInf | NInf, PInf => NaN
  | PInf, _ | _, PInf => PInf
  | NInf, _ | _, NInf => NInf
  end.

Definition fsub (x y : pyfloat) : pyfloat := fadd x (fneg y).

Definition fmul (x y : pyfloat) : pyfloat :=
  match x, y with
  | NaN, _ | _, NaN => NaN
  | Fin a, Fin b => Fin (a * b)
  | Fin a, PInf | PInf, Fin a => inf_of_sign (a ?= 0)
  | Fin a, NInf | NInf, Fin a => inf_of_sign (0 ?= a)
  | PInf, PInf | NInf, NInf => PInf
  | PInf, NInf | NInf, PInf => NInf
  end.

(** Division of numpy scalars and of pandas series: a zero divisor gives an
    infinity or NaN, never an exception. *)
Definition fdiv (x y : pyfloat) : pyfloat :=
  match x, y with
  | NaN, _ | _, NaN => NaN
  | Fin a, Fin b => if Qeq_bool b 0 then inf_of_sign (a ?= 0) else Fin (a / b)
  | Fin _, PInf | Fin _, NInf => Fin 0
  | PInf, Fin b => if Qle_bool 0 b then PInf else NInf
  | NInf, Fin b => if Qle_bool 0 b then NInf else PInf
  | _, _ => NaN
  end.

Definition fabs (x : pyfloat) : pyfloat :=
  match x with
  | Fin a => Fin (Qabs a)
  | PInf | NInf => PInf
  | NaN => NaN
  end.

(** Comparison; [None] when an operand is NaN, so that every ordering test
    on NaN is false and [!=] is true. *)
Definition fcmp (x y : pyfloat) : option comparison :=
  match x, y with
  | NaN, _ | _, NaN => None
  | Fin a, Fin b => Some (a ?= b)
  | PInf, PInf | NInf, NInf => Some Eq
  | PInf, _ | _, NInf => Some Gt
  | NInf, _ | _, PInf => Some Lt
  end.

Definition flt (x y : pyfloat) : bool :=
  match fcmp x y with Some Lt => true | _ => false end.

Definition fgt (x y : pyfloat) : bool :=
  match fcmp x y with Some Gt => true | _ => false end.

Definition feqb (x y : pyfloat) : bool :=
  match fcmp x y with Some Eq => true | _ => false end.

Definition fneb (x y : pyfloat) : bool := negb (feqb x y).

Definition of_nat (n : nat) : pyfloat := Fin (inject_Z (Z.of_nat n)).

(** Exceptions the plain-Python parts of the code could raise. *)
Inductive exn : Type :=
  | ZeroDivisionError
  | KeyError (key : string)
  | IndexError
  | ValueError
  | TypeError.

Inductive result (A : Type) : Type :=
  | Ok (a : A)
  | Raise (e : exn).

Arguments Ok {A} a.
Arguments Raise {A} e.

Definition bind {A B : Type} (m : result A) (k : A -> result B) : result B :=
  match m with
  | Ok a => k a
  | Raise e => Raise e
  end.

(** [a / b] on Python numbers: as [fdiv], except that a zero divisor
    raises. *)
Definition py_truediv (a b : pyfloat) : result pyfloat :=
  if feqb b (Fin 0) then Raise ZeroDivisionError else Ok (fdiv a b).

(** The built-ins [max] and [min] on a list of numbers; both raise on the
    empty list. *)
Definition py_max (l : list Q) : result Q :=
  match l with
  | [] => Raise ValueError
  | x :: l' => Ok (fold_left (fun m y => if Qle_bool y m then m else y) l' x)
  end.

Definition py_min (l : list Q) : result Q :=
  match l with
  | [] => Raise ValueError
  | x :: l' => Ok (fold_left (fun m y => if Qle_bool m y then m else y) l' x)
  end.

(** The built-in [sum]. *)
Definition py_sum (l : list Q) : Q := fold_left Qplus l 0.

(** The primitives whose results are not rational. *)
Class Libm : Type := {
  np_sqrt : pyfloat -> pyfloat;
  np_power : pyfloat -> pyfloat -> pyfloat
}.

End Py.

Import Py.

Notation "x <- m ;; k" := (bind m (fun x => k))
  (at level 61, m at next level, right associativity).

(** ** The pandas operations the code uses *)

Module Series.

Definition Series : Type := list pyfloat.

Definition of_list (l : list Q) : Series := map Fin l.

Definition empty (s : Series) : bool :=
  match s with [] => true | _ => false end.

Definition dropna (s : Series) : Series :=
  filter (fun x => negb (is_nan x)) s.

(** [s.iloc[0]] and [s.iloc[-1]]. *)
Definition iloc_first (s : Series) : result pyfloat :=
  match s with [] => Raise IndexError | x :: _ => Ok x end.

Definition iloc_last (s : Series) : result pyfloat :=
  match s with [] => Raise IndexError | x :: s' => Ok (last s' x) end.

Definition tail (n : nat) (s : Series) : Series :=
  skipn (length s - n) s.

(** [s[s < 0]]. *)
Definition negative (s : Series) : Series :=
  filter (fun x => flt x (Fin 0)) s.

(** Reductions skip NaN, as pandas does by default. *)
Definition sum (s : Series) : pyfloat := fold_left fadd (dropna s) (Fin 0).

Definition prod (s : Series) : pyfloat := fold_left fmul (dropna s) (Fin 1).

Definition count (s : Series) : nat := length (dropna s).

Definition mean (s : Series) : pyfloat :=
  match count s with
  | O => NaN
  | n => fdiv (sum s) (of_nat n)
  end.

Definition fmin2 (m x : pyfloat) : pyfloat := if flt x m then x else m.
Definition fmax2 (m x : pyfloat) : pyfloat := if fgt x m then x else m.

Definition min (s : Series) : pyfloat :=
  match dropna s with
  | [] => NaN
  | x :: s' => fold_left fmin2 s' x
  end.

Definition max (s : Series) : pyfloat :=
  match dropna s with
  | [] => NaN
  | x :: s' => fold_left fmax2 s' x
  end.

(** The running maximum.  [cummax()] reports the maximum of the
    observations seen so far and leaves NaN where the input has NaN.
    [expanding().max()] is a window function: pandas replaces the infinities
    of its input by NaN before it scans, so an infinite observation counts
    as a missing one, and the maximum so far is reported at every point. *)
Definition seen (acc : option pyfloat) (x : pyfloat) : option pyfloat :=
  if is_nan x then acc
  else Some (match acc with None => x | Some m => fmax2 m x end).

Definition seen_in_window (acc : option pyfloat) (x : pyfloat)
  : option pyfloat :=
  if is_finite x then seen acc x else acc.

Definition shown (acc : option pyfloat) : pyfloat :=
  match acc with None => NaN | Some m => m end.

Fixpoint expanding_max_from (acc : option pyfloat) (s : Series) : Series :=
  match s with
  | [] => []
  | x :: s' =>
      shown (seen_in_window acc x)
        :: expanding_max_from (seen_in_window acc x) s'
  end.

Definition expanding_max (s : Series) : Series := expanding_max_from None s.

Fixpoint cummax_from (acc : option pyfloat) (s : Series) : Series :=
  match s with
  | [] => []
  | x :: s' =>
      (if is_nan x then NaN else shown (seen acc x))
        :: cummax_from (seen acc x) s'
  end.

Definition cummax (s : Series) : Series := cummax_from None s.

(** Element-wise arithmetic on two series with the same index. *)
Fixpoint map2 (f : pyfloat -> pyfloat -> pyfloat) (s t : Series) : Series :=
  match s, t with
  | x :: s', y :: t' => f x y :: map2 f s' t'
  | _, _ => []
  end.

(** [s.pct_change()]: [s / s.shift(1) - 1]; the first entry has no
    predecessor. *)
Fixpoint pct_change_from (prev : pyfloat) (s : Series) : Series :=
  match s with
  | [] => []
  | x :: s' => fsub (fdiv x prev) (Fin 1) :: pct_change_from x s'
  end.

Definition pct_change (s : Series) : Series :=
  match s with
  | [] => []
  | x :: s' => NaN :: pct_change_from x s'
  end.

Section WithLibm.
Context {libm : Libm}.

(** The sample variance ([ddof = 1]): NaN with fewer than two
    observations.  The squared deviations of the observations that are not
    NaN are added up as they are: a deviation that is NaN itself (an
    infinite observation against an infinite mean) makes the variance NaN. *)
Definition var (s : Series) : pyfloat :=
  match count s with
  | O | S O => NaN
  | S n =>
      let avg := mean s in
      let sqr :=
        fold_left fadd
          (map (fun x => fmul (fsub avg x) (fsub avg x)) (dropna s)) (Fin 0) in
      fdiv sqr (of_nat n)
  end.

Definition std (s : Series) : pyfloat :=
  match count s with
  | O | S O => NaN
  | _ => np_sqrt (var s)
  end.

End WithLibm.

End Series.

(** ** The persisted data *)

(** One entry of [positions] in [portfolio_state.json]; every key is
    optional, the code reads them with [.get]. *)
Record Position : Type := {
  quantity : option Q;
  avg_price : option Q;
  current_price : option Q
}.

(** The contents of [portfolio_state.json]. *)
Record PortfolioState : Type := {
  cash : option Q;
  positions : option (list (string * Position));
  initial_capital : option Q
}.

(** One record of [trade_history.json]. *)
Record Trade : Type := {
  trade_date : string;
  symbol : string;
  action : option string;
  trade_quantity : Q;
  price : Q;
  pnl : option Q
}.

(** One valid daily log: its date (a day number) and the total equity. *)
Record EquityPoint : Type := {
  date : Z;
  equity : Q
}.

(** One file of [daily_logs], once read: the keys [date] and [portfolio]
    may be missing, and [portfolio] may lack [total_equity].  The date is
    held as [pd.to_datetime] converts it, a day number: a date that does not
    convert makes [get_equity_curve] raise, at the conversion that stands
    outside its [try], and has no value of this type. *)
Record DailyLog : Type := {
  log_date : option Z;
  portfolio : option (option Q)
}.

(** ** Dictionaries *)

Module Dict.

Inductive value : Type :=
  | VNum (x : pyfloat)
  | VPositions (ps : list (string * Position)).

(** A dictionary, in insertion order. *)
Definition dict : Type := list (string * value).

(** [d.get(k)] *)
Fixpoint get (d : dict) (k : string) : option value :=
  match d with
  | [] => None
  | (k', v) :: d' => if String.eqb k k' then Some v else get d' k
  end.

(** [d.get(k, default)] *)
Definition get_default (d : dict) (k : string) (default : value) : value :=
  match get d k with Some v => v | None => default end.

(** [d[k]] *)
Definition index (d : dict) (k : string) : result value :=
  match get d k with Some v => Ok v | None => Raise (KeyError k) end.

(** [d[k] = v] *)
Fixpoint set (d : dict) (k : string) (v : value) : dict :=
  match d with
  | [] => [(k, v)]
  | (k', v') :: d' =>
      if String.eqb k k' then (k, v) :: d' else (k', v') :: set d' k v
  end.

Definition keys (d : dict) : list string := map fst d.

(** Using a value as a number; a dictionary in that place is a
    [TypeError]. *)
Definition as_number (v : value) : result pyfloat :=
  match v with VNum x => Ok x | VPositions _ => Raise TypeError end.

(** [len(v)] *)
Definition len (v : value) : result nat :=
  match v with VPositions ps => Ok (List.length ps) | VNum _ => Raise TypeError end.

Definition num (q : Q) : value := VNum (Fin q).

End Dict.

Import Dict.

Definition or_default {A : Type} (o : option A) (default : A) : A :=
  match o with Some a => a | None => default end.

(** Truth value of a list: [not l]. *)
Definition is_nil {A : Type} (l : list A) : bool :=
  match l with [] => true | _ => false end.

(** ** [src/config.py] *)

Module Config.



End Config.

(** ** [src/data_loader.py] *)

Module DashboardDataLoader.

Section WithLibm.
Context {libm : Libm}.

(** [get_portfolio_status]; the argument is what [json.load] returns for
    the portfolio state file, [None] when the file does not exist. *)
Definition get_portfolio_status (paper_portfolio_file : option PortfolioState)
  : result dict :=
  match paper_portfolio_file with
  | Some data =>
      let cash := or_default (cash data) 100000 in
      let positions := or_default (positions data) [] in
      let invested :=
        py_sum (map (fun p =>
                       or_default (quantity p) 0
                       * or_default (current_price p) (or_default (avg_price p) 0))
                    (map snd positions)) in
      let initial := or_default (initial_capital data) 100000 in
      let total_equity := cash + invested in
      total_return_pct <-
        (if fgt (Fin initial) (Fin 0)
         then r <- py_truediv (Fin total_equity) (Fin initial) ;;
              Ok (fmul (fsub r (Fin 1)) (Fin 100))
         else Ok (Fin 0)) ;;
      Ok [("total_equity", num total_equity);
          ("cash", num cash);
          ("invested", num invested);
          ("positions", VPositions positions);
          ("total_return_pct", VNum total_return_pct);
          ("initial_capital", num initial)]
  | None =>
      Ok [("total_equity", num 100000);
          ("cash", num 100000);
          ("invested", num 0);
          ("positions", VPositions []);
          ("total_return_pct", num 0);
          ("initial_capital", num 100000)]
  end.

(** Helper methods *)

Definition _annualize_return (returns : Series.Series) : result pyfloat :=
  if Series.empty returns then Ok (Fin 0)
  else
    let total_return :=
      fsub (Series.prod (map (fadd (Fin 1)) returns)) (Fin 1) in
    let num_days := List.length returns in
    if Nat.eqb num_days 0 then Ok (Fin 0)
    else
      e <- py_truediv (Fin 252) (of_nat num_days) ;;
      Ok (fsub (np_power (fadd (Fin 1) total_return) e) (Fin 1)).

Definition _calculate_sharpe (returns : Series.Series) : pyfloat :=
  if Series.empty returns || feqb (Series.std returns) (Fin 0) then Fin 0
  else fmul (fdiv (Series.mean returns) (Series.std returns))
            (np_sqrt (Fin 252)).

Definition _calculate_sortino (returns : Series.Series) : pyfloat :=
  if Series.empty returns then Fin 0
  else
    let downside_returns := Series.negative returns in
    if Series.empty downside_returns
       || feqb (Series.std downside_returns) (Fin 0)
    then Fin 0
    else fmul (fdiv (Series.mean returns) (Series.std downside_returns))
              (np_sqrt (Fin 252)).

Definition _calculate_max_drawdown (equity : Series.Series) : pyfloat :=
  if Series.empty equity then Fin 0
  else
    let running_max := Series.expanding_max equity in
    let drawdown :=
      Series.map2 fdiv (Series.map2 fsub equity running_max) running_max in
    Series.min drawdown.

(** [trades['pnl'] > 0]: a row without [pnl] holds NaN and is not
    selected. *)
Definition pnl_positive (t : Trade) : bool :=
  match pnl t with Some p => fgt (Fin p) (Fin 0) | None => false end.

(** [_calculate_win_rate]; the argument is the frame returned by
    [get_trade_history(days)], whose column [pnl] exists as soon as one
    record has the key. *)
Definition _calculate_win_rate (trades : list Trade) : result pyfloat :=
  if is_nil trades
     || forallb (fun t => match pnl t with None => true | Some _ => false end)
                trades
  then Ok (Fin 0)
  else
    let winning_trades := List.length (filter pnl_positive trades) in
    py_truediv (of_nat winning_trades) (of_nat (List.length trades)).

(** [get_performance_metrics]; the arguments are the frames returned by
    [get_equity_curve(days)] and [get_trade_history(days)]. *)
Definition get_performance_metrics
  (equity_curve : list EquityPoint) (trades : list Trade) : result dict :=
  match equity_curve with
  | [] => Ok []
  | _ =>
      let equity := Series.of_list (map equity equity_curve) in
      let returns := Series.dropna (Series.pct_change equity) in
      last <- Series.iloc_last equity ;;
      first <- Series.iloc_first equity ;;
      annual_return_pct <- _annualize_return returns ;;
      win_rate <- _calculate_win_rate trades ;;
      let metrics :=
        [("total_return_pct", VNum (fsub (fdiv last first) (Fin 1)));
         ("annual_return_pct", VNum annual_return_pct);
         ("sharpe_ratio", VNum (_calculate_sharpe returns));
         ("sortino_ratio", VNum (_calculate_sortino returns));
         ("max_drawdown", VNum (_calculate_max_drawdown equity));
         ("win_rate", VNum win_rate);
         ("volatility", VNum (fmul (Series.std returns) (np_sqrt (Fin 252))));
         ("calmar_ratio", num 0)] in
      max_drawdown <- (v <- index metrics "max_drawdown" ;; as_number v) ;;
      if fneb max_drawdown (Fin 0)
      then
        a <- (v <- index metrics "annual_return_pct" ;; as_number v) ;;
        m <- (v <- index metrics "max_drawdown" ;; as_number v) ;;
        Ok (set metrics "calmar_ratio" (VNum (fdiv a (fabs m))))
      else Ok metrics
  end.

(** [get_risk_status]; the arguments are the portfolio state file as
    [get_portfolio_status] takes it, the mapping [load_config] returns for
    [config/risk_params.yaml] and the frame returned by
    [get_equity_curve(days=90)]. *)
Definition get_risk_status
  (paper_portfolio_file : option PortfolioState) (risk_config : dict)
  (equity_curve : list EquityPoint) : result dict :=
  portfolio <- get_portfolio_status paper_portfolio_file ;;
  total_equity <- as_number (get_default portfolio "total_equity" (num 100000)) ;;
  invested <- as_number (get_default portfolio "invested" (num 0)) ;;
  num_positions <- len (get_default portfolio "positions" (VPositions [])) ;;
  current_drawdown <-
    (match equity_curve with
     | [] => Ok (Fin 0)
     | _ =>
         let equity := Series.of_list (map equity equity_curve) in
         let peak := Series.max equity in
         current <- Series.iloc_last equity ;;
         Ok (if fgt peak (Fin 0) then fdiv (fsub current peak) peak else Fin 0)
     end) ;;
  portfolio_exposure <-
    (if fgt total_equity (Fin 0) then py_truediv invested total_equity
     else Ok (Fin 0)) ;;
  Ok [("portfolio_exposure", VNum portfolio_exposure);
      ("max_exposure", get_default risk_config "max_portfolio_exposure" (num 0.5));
      ("num_positions", VNum (of_nat num_positions));
      ("max_positions", get_default risk_config "max_positions" (num 3));
      ("current_drawdown", VNum (fabs current_drawdown));
      ("max_drawdown_limit", get_default risk_config "max_drawdown_alert" (num 0.15))].

(** [get_demo_trade_history] *)
Definition get_demo_trade_history : list Trade :=
  [ {| trade_date := "2025-12-05"; symbol := "2330.TW"; action := Some "BUY";
       trade_quantity := 100; price := 580; pnl := Some 0 |};
    {| trade_date := "2025-12-15"; symbol := "2330.TW"; action := Some "SELL";
       trade_quantity := 100; price := 610; pnl := Some 3000 |};
    {| trade_date := "2025-12-20"; symbol := "2330.TW"; action := Some "BUY";
       trade_quantity := 120; price := 595; pnl := Some 0 |};
    {| trade_date := "2026-01-05"; symbol := "2330.TW"; action := Some "SELL";
       trade_quantity := 120; price := 575; pnl := Some (-2400) |};
    {| trade_date := "2026-01-10"; symbol := "2330.TW"; action := Some "BUY";
       trade_quantity := 150; price := 560; pnl := Some 0 |};
    {| trade_date := "2026-01-20"; symbol := "2330.TW"; action := Some "SELL";
       trade_quantity := 150; price := 590; pnl := Some 4500 |};
    {| trade_date := "2026-01-25"; symbol := "2330.TW"; action := Some "BUY";
       trade_quantity := 130; price := 585; pnl := Some 0 |} ].

(** [get_drawdown_data]; the argument is the frame returned by
    [get_equity_curve(days)].  The rows of the result are pairs of a date and
    a drawdown; the empty frame has none. *)
Definition get_drawdown_data (equity_curve : list EquityPoint)
  : list (Z * pyfloat) :=
  match equity_curve with
  | [] => []
  | _ =>
      let equity := Series.of_list (map equity equity_curve) in
      let running_max := Series.expanding_max equity in
      let drawdown :=
        Series.map2 fdiv (Series.map2 fsub equity running_max) running_max in
      combine (map date equity_curve) drawdown
  end.

End WithLibm.

Section WithSort.

(** [df.sort_values('date')] and the clock are arguments; dates and the
    clock are in days. *)
Variable sort_values : list EquityPoint -> list EquityPoint.

(** The rows the loop over the log files collects: a file that cannot be
    read or parsed, or that lacks [date], raises inside [try] and is skipped;
    a file without [portfolio] adds nothing. *)
Definition equity_row (file : option DailyLog) : list EquityPoint :=
  match file with
  | Some data =>
      match portfolio data, log_date data with
      | Some p, Some d => [{| date := d; equity := or_default p 0 |}]
      | _, _ => []
      end
  | None => []
  end.

(** [get_equity_curve]; the arguments are the directory of daily logs
    ([None] when it does not exist) as the list of its files in name order,
    the current time and [days]. *)
Definition get_equity_curve
  (paper_trading_logs : option (list (option DailyLog))) (now : Q)
  (days : option nat) : list EquityPoint :=
  match paper_trading_logs with
  | Some files =>
      let equity_data := flat_map equity_row files in
      if negb (is_nil equity_data)
      then
        let df := sort_values equity_data in
        match days with
        | Some (S n) =>
            let cutoff_date := now - inject_Z (Z.of_nat (S n)) in
            filter (fun r => Qle_bool cutoff_date (inject_Z (date r))) df
        | _ => df
        end
      else []
  | None => []
  end.

End WithSort.

Section WithDates.

(** [pd.to_datetime] on one date string; [None] when it cannot parse it
    and raises.  Dates and the clock are in days.  The column is converted
    string by string: a column whose strings parse one by one and follow
    different formats, which pandas refuses as a whole, is taken here as
    converted. *)
Variable to_datetime : string -> option Q.

(** [df['date'] = pd.to_datetime(df['date'])]: the rows with their parsed
    dates, or [None] when some date makes the conversion raise. *)
Fixpoint parse_dates (trades : list Trade) : option (list (Q * Trade)) :=
  match trades with
  | [] => Some []
  | t :: trades' =>
      match to_datetime (trade_date t), parse_dates trades' with
      | Some d, Some df => Some ((d, t) :: df)
      | _, _ => None
      end
  end.

(** [get_trade_history]; the arguments are the trade history file ([None]
    when it does not exist, [Some None] when it cannot be read or parsed),
    the current time and [days].  Every exception is caught and gives the
    empty frame. *)
Definition get_trade_history
  (paper_trades_file : option (option (list Trade))) (now : Q)
  (days : option nat) : list Trade :=
  match paper_trades_file with
  | Some (Some trades) =>
      if negb (is_nil trades)
      then
        match parse_dates trades with
        | Some df =>
            match days with
            | Some (S n) =>
                let cutoff_date := now - inject_Z (Z.of_nat (S n)) in
                map snd (filter (fun r => Qle_bool cutoff_date (fst r)) df)
            | _ => map snd df
            end
        | None => []
        end
      else []
  | Some None => []
  | None => []
  end.

End WithDates.

End DashboardDataLoader.

(** ** [src/metrics.py] *)

Module DashboardMetrics.

Section WithLibm.
Context {libm : Libm}.

(** [get_portfolio_summary]; the argument is what [json.load] returns for
    the portfolio state file, [None] when the file does not exist. *)
Definition get_portfolio_summary (state_file : option PortfolioState)
  : result dict :=
  match state_file with
  | None =>
      Ok [("total_equity", num 0);
          ("cash", num 0);
          ("positions_value", num 0);
          ("total_return_pct", num 0);
          ("unrealized_pnl", num 0)]
  | Some state =>
      let initial := or_default (initial_capital state) 100000 in
      let cash := or_default (cash state) initial in
      let positions := or_default (positions state) [] in
      let positions_value :=
        py_sum (map (fun p =>
                       or_default (quantity p) 0 * or_default (current_price p) 0)
                    (map snd positions)) in
      let total_equity := cash + positions_value in
      total_return_pct <-
        (if fgt (Fin initial) (Fin 0)
         then r <- py_truediv (Fin total_equity) (Fin initial) ;;
              Ok (fmul (fsub r (Fin 1)) (Fin 100))
         else Ok (Fin 0)) ;;
      Ok [("total_equity", num total_equity);
          ("cash", num cash);
          ("positions_value", num positions_value);
          ("total_return_pct", VNum total_return_pct);
          ("initial_capital", num initial);
          ("positions", VPositions positions)]
  end.

Definition is_sell (t : Trade) : bool :=
  match action t with Some a => String.eqb a "SELL" | None => false end.

Definition no_trade_statistics (total_trades : nat) : dict :=
  [("total_trades", VNum (of_nat total_trades));
   ("winning_trades", num 0);
   ("losing_trades", num 0);
   ("win_rate", num 0);
   ("total_pnl", num 0);
   ("avg_pnl", num 0)].

(** [get_trade_statistics]; the argument is what [json.load] returns for
    the trade history file, [None] when the file does not exist. *)
Definition get_trade_statistics (trades_file : option (list Trade))
  : result dict :=
  match trades_file with
  | None => Ok (no_trade_statistics 0)
  | Some [] => Ok (no_trade_statistics 0)
  | Some trades =>
      let closed_trades := filter is_sell trades in
      match closed_trades with
      | [] => Ok (no_trade_statistics (List.length trades))
      | _ =>
          let pnls := map (fun t => or_default (pnl t) 0) closed_trades in
          let winning :=
            List.length (filter (fun p => fgt (Fin p) (Fin 0)) pnls) in
          let losing :=
            List.length (filter (fun p => flt (Fin p) (Fin 0)) pnls) in
          win_rate <-
            (if negb (is_nil closed_trades)
             then r <- py_truediv (of_nat winning)
                                  (of_nat (List.length closed_trades)) ;;
                  Ok (fmul r (Fin 100))
             else Ok (Fin 0)) ;;
          let avg_pnl :=
            if negb (is_nil pnls)
            then fdiv (Fin (py_sum pnls)) (of_nat (List.length pnls))
            else Fin 0 in
          best_trade <- (if negb (is_nil pnls) then py_max pnls else Ok 0) ;;
          worst_trade <- (if negb (is_nil pnls) then py_min pnls else Ok 0) ;;
          Ok [("total_trades", VNum (of_nat (List.length trades)));
              ("closed_trades", VNum (of_nat (List.length closed_trades)));
              ("winning_trades", VNum (of_nat winning));
              ("losing_trades", VNum (of_nat losing));
              ("win_rate", VNum win_rate);
              ("total_pnl", num (py_sum pnls));
              ("avg_pnl", VNum avg_pnl);
              ("best_trade", num best_trade);
              ("worst_trade", num worst_trade)]
      end
  end.

Definition calculate_sharpe_ratio
  (returns : Series.Series) (risk_free_rate : pyfloat) : pyfloat :=
  if Series.empty returns
     || Nat.ltb (List.length returns) 2
     || feqb (Series.std returns) (Fin 0)
  then Fin 0
  else
    let mean_return := fmul (Series.mean returns) (Fin 252) in
    let std_return := fmul (Series.std returns) (np_sqrt (Fin 252)) in
    fdiv (fsub mean_return risk_free_rate) std_return.

Definition calculate_max_drawdown (equity_curve : Series.Series) : pyfloat :=
  if Series.empty equity_curve then Fin 0
  else
    let running_max := Series.cummax equity_curve in
    let drawdown :=
      map (fun x => fmul (fsub x (Fin 1)) (Fin 100))
          (Series.map2 fdiv equity_curve running_max) in
    Series.min drawdown.

(** [get_daily_returns]; the argument is the directory of daily logs
    ([None] when it does not exist), as the list of its valid entries with
    their dates converted, sorted by date. *)
Definition get_daily_returns
  (daily_logs : option (list EquityPoint)) (days : nat) : Series.Series :=
  match daily_logs with
  | None => []
  | Some [] => []
  | Some equity_data =>
      let returns :=
        Series.dropna
          (Series.pct_change (Series.of_list (map equity equity_data))) in
      if negb (Nat.eqb days 0) && Nat.ltb days (List.length returns)
      then Series.tail days returns
      else returns
  end.

(** The locals [sortino], [volatility], [total_return] and [annual_return]
    of [get_performance_metrics]. *)
Definition sortino (returns : Series.Series) : pyfloat :=
  let negative_returns := Series.negative returns in
  if Nat.ltb 0 (List.length negative_returns)
  then
    let downside_std :=
      fmul (Series.std negative_returns) (np_sqrt (Fin 252)) in
    if fgt downside_std (Fin 0)
    then fdiv (fsub (fmul (Series.mean returns) (Fin 252)) (Fin 0.02))
              downside_std
    else Fin 0
  else PInf.

Definition volatility (returns : Series.Series) : pyfloat :=
  fmul (fmul (Series.std returns) (np_sqrt (Fin 252))) (Fin 100).

Definition total_return (returns : Series.Series) : pyfloat :=
  fmul (fsub (Series.prod (map (fadd (Fin 1)) returns)) (Fin 1)) (Fin 100).

Definition annual_return (returns : Series.Series) : result pyfloat :=
  let trading_days := List.length returns in
  if Nat.ltb 0 trading_days
  then
    e <- py_truediv (Fin 252) (of_nat trading_days) ;;
    Ok (fmul (fsub (np_power (fadd (Fin 1) (fdiv (total_return returns) (Fin 100))) e)
                   (Fin 1))
             (Fin 100))
  else Ok (Fin 0).

(** The body of [get_performance_metrics] once [returns] is known. *)
Definition performance_metrics_of
  (returns : Series.Series) (trades_file : option (list Trade))
  : result dict :=
  if Series.empty returns
  then Ok [("sharpe_ratio", num 0);
           ("sortino_ratio", num 0);
           ("max_drawdown", num 0);
           ("volatility", num 0);
           ("win_rate", num 0);
           ("total_return_pct", num 0);
           ("annual_return_pct", num 0)]
  else
    let sharpe := calculate_sharpe_ratio returns (Fin 0.02) in
    let sortino := sortino returns in
    let volatility := volatility returns in
    let total_return := total_return returns in
    annual_return <- annual_return returns ;;
    trade_stats <- get_trade_statistics trades_file ;;
    win_rate <-
      (w <- as_number (get_default trade_stats "win_rate" (num 0)) ;;
       py_truediv w (Fin 100)) ;;
    Ok [("sharpe_ratio", VNum sharpe);
        ("sortino_ratio", VNum sortino);
        ("max_drawdown", num 0);
        ("volatility", VNum volatility);
        ("win_rate", VNum win_rate);
        ("total_return_pct", VNum total_return);
        ("annual_return_pct", VNum annual_return)].

(** [get_performance_metrics]; the arguments are the directory of daily
    logs and the trade history file. *)
Definition get_performance_metrics
  (daily_logs : option (list EquityPoint)) (trades_file : option (list Trade))
  (days : nat) : result dict :=
  performance_metrics_of (get_daily_returns daily_logs days) trades_file.

End WithLibm.

End DashboardMetrics.

(** ** An instance to run the code on examples *)

Module Reference.

(** The square root of a non-negative rational, rounded down to six
    decimals. *)
Definition sqrt_down (q : Q) : Q :=
  Qred (Z.sqrt (Qnum q * Zpos (Qden q) * 10 ^ 12) # (Qden q * 10 ^ 6)).

Definition sqrt (x : pyfloat) : pyfloat :=
  match x with
  | Fin q => if Qle_bool 0 q then Fin (sqrt_down q) else NaN
  | PInf => PInf
  | NInf | NaN => NaN
  end.

(** The power, on the arguments where it is rational and easy: a finite
    base and a non-negative integral exponent.  Elsewhere this instance does
    not evaluate it and answers NaN. *)
Definition power (x y : pyfloat) : pyfloat :=
  match x, y with
  | Fin a, Fin b =>
      match Qred b with
      | Qmake (Z.neg _) _ => NaN
      | Qmake n 1 => Fin (Qred (Qpower a n))
      | _ => NaN
      end
  | _, _ => NaN
  end.

#[export] Instance libm : Libm := {| np_sqrt := sqrt; np_power := power |}.

End Reference.

(** ** The maximum drawdowns on binary64 numbers *)

Module Binary64.
Import PrimFloat.

(** The two maximum drawdown computations once more, on the numbers Python
    and numpy compute with: every operation is the IEEE 754 binary64 one,
    rounded to nearest. *)
Definition Series : Type := list float.

(** A series of integers, as the JSON logs hold them. *)
Definition of_int (z : Z) : float := of_uint63 (Uint63.of_Z z).

Definition of_list (l : list Z) : Series := map of_int l.

Definition empty (s : Series) : bool :=
  match s with [] => true | _ => false end.

Definition dropna (s : Series) : Series :=
  filter (fun x => negb (is_nan x)) s.

Definition fmin2 (m x : float) : float := if ltb x m then x else m.
Definition fmax2 (m x : float) : float := if ltb m x then x else m.

Definition min (s : Series) : float :=
  match dropna s with
  | [] => nan
  | x :: s' => fold_left fmin2 s' x
  end.

Definition seen (acc : option float) (x : float) : option float :=
  if is_nan x then acc
  else Some (match acc with None => x | Some m => fmax2 m x end).

Definition seen_in_window (acc : option float) (x : float) : option float :=
  if is_infinity x then acc else seen acc x.

Definition shown (acc : option float) : float :=
  match acc with None => nan | Some m => m end.

Fixpoint expanding_max_from (acc : option float) (s : Series) : Series :=
  match s with
  | [] => []
  | x :: s' =>
      shown (seen_in_window acc x)
        :: expanding_max_from (seen_in_window acc x) s'
  end.

Definition expanding_max (s : Series) : Series := expanding_max_from None s.

Fixpoint cummax_from (acc : option float) (s : Series) : Series :=
  match s with
  | [] => []
  | x :: s' =>
      (if is_nan x then nan else shown (seen acc x))
        :: cummax_from (seen acc x) s'
  end.

Definition cummax (s : Series) : Series := cummax_from None s.

Fixpoint map2 (f : float -> float -> float) (s t : Series) : Series :=
  match s, t with
  | x :: s', y :: t' => f x y :: map2 f s' t'
  | _, _ => []
  end.

(** [DashboardDataLoader._calculate_max_drawdown] *)
Definition _calculate_max_drawdown (equity : Series) : float :=
  if empty equity then zero
  else
    let running_max := expanding_max equity in
    let drawdown := map2 div (map2 sub equity running_max) running_max in
    min drawdown.

(** [DashboardMetrics.calculate_max_drawdown] *)
Definition calculate_max_drawdown (equity_curve : Series) : float :=
  if empty equity_curve then zero
  else
    let running_max := cummax equity_curve in
    let drawdown :=
      map (fun x => mul (sub x one) (of_int 100))
          (map2 div equity_curve running_max) in
    min drawdown.

End Binary64.

(** ** The quantities as the specification words them *)

Module Spec.

(** A closed trade is a SELL; its P&L is 0 when the record has none. *)
Definition closed_trades (trades : list Trade) : list Trade :=
  filter DashboardMetrics.is_sell trades.

Definition is_win (t : Trade) : bool :=
  match pnl t with Some p => negb (Qle_bool p 0) | None => false end.

Definition wins (trades : list Trade) : nat :=
  List.length (filter is_win (closed_trades trades)).

(** count(pnl > 0) / count(closed trades), and 0 without closed trades. *)
Definition win_rate (trades : list Trade) : Q :=
  match closed_trades trades with
  | [] => 0
  | closed =>
      inject_Z (Z.of_nat (wins trades)) / inject_Z (Z.of_nat (List.length closed))
  end.

(** The sum over positions of quantity times current price. *)
Definition invested_value (ps : list (string * Position)) : Q :=
  fold_right
    (fun p acc =>
       or_default (quantity (snd p)) 0 * or_default (current_price (snd p)) 0 + acc)
    0 ps.

(** The product of [1 + r] over the returns, minus 1. *)
Definition total_return (returns : list Q) : Q :=
  fold_right (fun r acc => (1 + r) * acc) 1 returns - 1.

(** The maximum of the first [i + 1] points. *)
Definition prefix_max (equity : list Q) (i : nat) : Q :=
  match firstn (S i) equity with
  | [] => 0
  | x :: l => fold_right Qmax x l
  end.

(** The drawdown of point [i] against the prefix maximum. *)
Definition drawdown_at (equity : list Q) (i : nat) : pyfloat :=
  fdiv (Fin (nth i equity 0 - prefix_max equity i)) (Fin (prefix_max equity i)).

(** The minimum of the pointwise drawdowns, and 0 on the empty series. *)
Definition max_drawdown (equity : list Q) : pyfloat :=
  match equity with
  | [] => Fin 0
  | _ => Series.min (map (drawdown_at equity) (seq 0 (List.length equity)))
  end.

End Spec.

(** The field [k] of the record a computation returns, if it returns one
    and the record has the field. *)
Definition field (r : result dict) (k : string) : option value :=
  match r with Ok d => get d k | Raise _ => None end.

Definition returns_value {A : Type} (r : result A) : Prop :=
  exists a, r = Ok a.

Definition points (equity : list Q) : list EquityPoint :=
  map (fun q => {| date := 0; equity := q |}) equity.

(** ** Auxiliary definitions *)

(** The fields of the two performance records. *)
Definition loader_fields : list string :=
  ["total_return_pct"; "annual_return_pct"; "sharpe_ratio"; "sortino_ratio";
   "max_drawdown"; "win_rate"; "volatility"; "calmar_ratio"].

Definition metrics_fields : list string :=
  ["sharpe_ratio"; "sortino_ratio"; "max_drawdown"; "volatility"; "win_rate";
   "total_return_pct"; "annual_return_pct"].

(** The all-zero records of [DashboardMetrics]. *)
Definition zero_performance_record : dict :=
  [("sharpe_ratio", num 0); ("sortino_ratio", num 0); ("max_drawdown", num 0);
   ("volatility", num 0); ("win_rate", num 0); ("total_return_pct", num 0);
   ("annual_return_pct", num 0)].

Definition zero_trade_record : dict :=
  [("total_trades", num 0); ("winning_trades", num 0); ("losing_trades", num 0);
   ("win_rate", num 0); ("total_pnl", num 0); ("avg_pnl", num 0)].

(** The equity series and the portfolio of the concrete scenarios. *)
Definition scenario_equity : list Q := [100000; 105000; 95000; 110000].

Definition scenario_portfolio : PortfolioState :=
  {| cash := Some 50000;
     positions :=
       Some [("A", {| quantity := Some 100; avg_price := None;
                      current_price := Some 500 |})];
     initial_capital := Some 100000 |}.

(** The same holding, recorded with its average price only. *)
Definition unpriced_portfolio : PortfolioState :=
  {| cash := Some 50000;
     positions :=
       Some [("A", {| quantity := Some 100; avg_price := Some 500;
                      current_price := None |})];
     initial_capital := Some 100000 |}.

(** The invested value as [get_portfolio_status] takes it: the sum over
    positions of quantity times current price, the average price standing in
    for a position without current price. *)
Definition invested_value_with_avg_price (ps : list (string * Position)) : Q :=
  fold_right
    (fun p acc =>
       or_default (quantity (snd p)) 0
       * or_default (current_price (snd p)) (or_default (avg_price (snd p)) 0)
       + acc)
    0 ps.

(** [x] is the exposure of a portfolio with this cash and invested value:
    [invested / total_equity] when the total equity is positive, and 0
    otherwise. *)
Definition exposure_of (cash invested x : Q) : Prop :=
  (0 < cash + invested -> x == invested / (cash + invested))
  /\ (cash + invested <= 0 -> x == 0).

(** No return of the series is negative. *)
Definition no_negative (returns : Series.Series) : Prop :=
  Forall (fun r => flt r (Fin 0) = false) returns.

(** An equity curve that touches 0: its returns are -1, +infinity, -0.2 and
    -0.25. *)
Definition wiped_out_equity : list Q := [100; 0; 50; 40; 30].



(** [a] is [c] times [b]. *)
Definition scaled (c : Q) (a b : pyfloat) : Prop := feq a (fmul (Fin c) b).

(** The running maximum of finite observations, on rationals. *)
Definition qmax2 (m x : Q) : Q := if fgt (Fin x) (Fin m) then x else m.

Fixpoint running_max_from (acc : option Q) (l : list Q) : list Q :=
  match l with
  | [] => []
  | x :: l' =>
      let m := match acc with None => x | Some a => qmax2 a x end in
      m :: running_max_from (Some m) l'
  end.

(** The drawdown at point [j] of [l], against the maximum of [b] and the
    first [j + 1] points. *)
Definition drawdown_after (b : Q) (l : list Q) (j : nat) : pyfloat :=
  let m := fold_right Qmax b (firstn (S j) l) in
  fdiv (Fin (nth j l 0 - m)) (Fin m).

(** ** Auxiliary definitions for the further properties *)

(** A finite value that satisfies [P]. *)
Definition fin_sat (P : Q -> Prop) (x : pyfloat) : Prop :=
  exists q, x = Fin q /\ P q.

(** The drawdowns of [l] after a running maximum [a], as rationals. *)
Fixpoint drawdowns_after (a : Q) (l : list Q) : list Q :=
  match l with
  | [] => []
  | x :: l' => (x - qmax2 a x) / qmax2 a x :: drawdowns_after (qmax2 a x) l'
  end.

(** What [get_portfolio_status] reports as positions, invested value and
    total equity. *)
Definition status_positions (file : option PortfolioState)
  : list (string * Position) :=
  match file with
  | Some data => or_default (positions data) []
  | None => []
  end.

Definition status_invested (file : option PortfolioState) : Q :=
  match file with
  | Some data =>
      py_sum
        (map (fun p =>
                or_default (quantity p) 0
                * or_default (current_price p) (or_default (avg_price p) 0))
             (map snd (or_default (positions data) [])))
  | None => 0
  end.

Definition status_cash (file : option PortfolioState) : Q :=
  match file with
  | Some data => or_default (cash data) 100000
  | None => 100000
  end.

(** The local [current_drawdown] of [get_risk_status]. *)
Definition current_drawdown_of (equity_curve : list EquityPoint) : pyfloat :=
  match equity_curve with
  | [] => Fin 0
  | _ =>
      let peak := Series.max (Series.of_list (map equity equity_curve)) in
      let current := last (map equity equity_curve) 0 in
      if fgt peak (Fin 0) then fdiv (fsub (Fin current) peak) peak else Fin 0
  end.

(** An optional number that is not negative. *)
Definition opt_nonneg (o : option Q) : Prop :=
  match o with Some q => 0 <= q | None => True end.

Definition position_nonneg (p : Position) : Prop :=
  opt_nonneg (quantity p) /\ opt_nonneg (avg_price p)
  /\ opt_nonneg (current_price p).

(** The P&L of the closed (SELL) trades, 0 where a trade has none. *)
Definition closed_pnls (trades : list Trade) : list Q :=
  map (fun t => or_default (pnl t) 0) (filter DashboardMetrics.is_sell trades).

Definition py_max_of (x : Q) (l : list Q) : Q :=
  fold_left (fun m y => if Qle_bool y m then m else y) l x.

Definition py_min_of (x : Q) (l : list Q) : Q :=
  fold_left (fun m y => if Qle_bool m y then m else y) l x.

Definition count_pos (l : list Q) : nat :=
  List.length (filter (fun p => fgt (Fin p) (Fin 0)) l).

Definition count_neg (l : list Q) : nat :=
  List.length (filter (fun p => flt (Fin p) (Fin 0)) l).

(** The returns of [l] after the value [prev], as rationals. *)
Fixpoint returns_after (prev : Q) (l : list Q) : list Q :=
  match l with
  | [] => []
  | x :: l' => (x / prev - 1) :: returns_after x l'
  end.

(** A log file that could be read and parsed. *)
Definition readable (file : option DailyLog) : bool :=
  match file with Some _ => true | None => false end.



(** [l] is [m] with some entries left out, the others in their order. *)
Inductive subsequence {A : Type} : list A -> list A -> Prop :=
  | subsequence_nil : subsequence [] []
  | subsequence_skip (x : A) (l m : list A) :
      subsequence l m -> subsequence l (x :: m)
  | subsequence_keep (x : A) (l m : list A) :
      subsequence l m -> subsequence (x :: l) (x :: m).

(** A date parser for the examples: the day of the month of a date written
    [2025-12-DD], nothing for other strings. *)
Definition scenario_to_datetime (s : string) : option Q :=
  if String.eqb (String.substring 0 8 s) "2025-12-"
  then match String.substring 8 2 s with
       | "05" => Some 5
       | "15" => Some 15
       | "20" => Some 20
       | _ => None
       end
  else None.

(** * Properties *)

(** ** Floats *)

Lemma feq_refl (x : pyfloat) : feq x x.
Proof. destruct x; simpl; auto. reflexivity. Qed.

Lemma feq_sym (x y : pyfloat) : feq x y -> feq y x.
Proof. destruct x, y; simpl; auto. intros H; symmetry; exact H. Qed.

Lemma feq_trans (x y z : pyfloat) : feq x y -> feq y z -> feq x z.
Proof.
  destruct x, y, z; simpl; try tauto.
  intros H1 H2. rewrite H1. exact H2.
Qed.

Lemma inject_nat_pos (n : nat) : 0 < inject_Z (Z.of_nat (S n)).
Proof.
  unfold Qlt. simpl. lia.
Qed.

Lemma inject_nat_nonneg (n : nat) : 0 <= inject_Z (Z.of_nat n).
Proof.
  unfold Qle. simpl. lia.
Qed.

Lemma of_nat_S_cmp (n : nat) : fcmp (of_nat (S n)) (Fin 0) = Some Gt.
Proof.
  unfold of_nat, fcmp.
  pose proof (inject_nat_pos n) as H. apply Qgt_alt in H.
  rewrite H. reflexivity.
Qed.

Lemma py_truediv_of_nat (x : pyfloat) (n : nat) :
  py_truediv x (of_nat (S n)) = Ok (fdiv x (of_nat (S n))).
Proof.
  unfold py_truediv, feqb. rewrite of_nat_S_cmp. reflexivity.
Qed.

Lemma py_truediv_const (x : pyfloat) (q : Q) :
  ~ q == 0 -> py_truediv x (Fin q) = Ok (fdiv x (Fin q)).
Proof.
  intros H. unfold py_truediv, feqb, fcmp.
  destruct (Qcompare_spec q 0) as [E | L | G]; try reflexivity.
  contradiction.
Qed.

Lemma fgt_Fin (a b : Q) : fgt (Fin a) (Fin b) = true <-> b < a.
Proof.
  unfold fgt, fcmp.
  destruct (Qcompare_spec a b) as [E | L | G]; split; intros H;
    try discriminate; try reflexivity; try lra.
Qed.

Lemma flt_Fin (a b : Q) : flt (Fin a) (Fin b) = true <-> a < b.
Proof.
  unfold flt, fcmp.
  destruct (Qcompare_spec a b) as [E | L | G]; split; intros H;
    try discriminate; try reflexivity; try lra.
Qed.

Lemma feqb_Fin (a b : Q) : feqb (Fin a) (Fin b) = true <-> a == b.
Proof.
  unfold feqb, fcmp.
  destruct (Qcompare_spec a b) as [E | L | G]; split; intros H;
    try discriminate; try reflexivity; try lra.
Qed.

(** ** Trade statistics *)

Lemma fgt_pnl_is_win (t : Trade) :
  fgt (Fin (or_default (pnl t) 0)) (Fin 0) = Spec.is_win t.
Proof.
  unfold Spec.is_win. destruct (pnl t) as [p|]; simpl.
  - destruct (fgt (Fin p) (Fin 0)) eqn:E.
    + apply fgt_Fin in E. symmetry. apply negb_true_iff.
      destruct (Qle_bool p 0) eqn:L; auto. apply Qle_bool_iff in L. lra.
    + symmetry. apply negb_false_iff. apply Qle_bool_iff.
      destruct (Qlt_le_dec 0 p) as [G|G]; auto.
      apply fgt_Fin in G. congruence.
  - reflexivity.
Qed.

Lemma count_wins (l : list Trade) :
  List.length (filter (fun p => fgt (Fin p) (Fin 0))
                      (map (fun t => or_default (pnl t) 0) l))
  = List.length (filter Spec.is_win l).
Proof.
  induction l as [|t l IH]; simpl; auto.
  rewrite fgt_pnl_is_win. destruct (Spec.is_win t); simpl; congruence.
Qed.

Lemma fdiv_of_nat (a : Q) (n : nat) :
  fdiv (Fin a) (of_nat (S n)) = Fin (a / inject_Z (Z.of_nat (S n))).
Proof.
  unfold of_nat, fdiv.
  destruct (Qeq_bool (inject_Z (Z.of_nat (S n))) 0) eqn:E; auto.
  apply Qeq_bool_iff in E. pose proof (inject_nat_pos n). lra.
Qed.

Lemma get_trade_statistics_win_rate (trades_file : option (list Trade)) :
  exists d w,
    DashboardMetrics.get_trade_statistics trades_file = Ok d
    /\ get d "win_rate" = Some (VNum (Fin w))
    /\ w == Spec.win_rate (or_default trades_file []) * 100.
Proof.
  destruct trades_file as [[|t l]|];
    try (exists (DashboardMetrics.no_trade_statistics 0), 0;
         repeat split; reflexivity).
  unfold DashboardMetrics.get_trade_statistics, Spec.win_rate, Spec.wins,
    Spec.closed_trades, or_default.
  destruct (filter DashboardMetrics.is_sell (t :: l)) as [|c cs] eqn:E.
  - eexists _, 0. repeat split; reflexivity.
  - cbn [is_nil negb List.length map].
    rewrite py_truediv_of_nat. cbn [bind py_max py_min].
    unfold of_nat at 3. rewrite fdiv_of_nat.
    eexists _, _. split; [reflexivity|]. split; [reflexivity|].
    rewrite <- (count_wins (c :: cs)). cbn [map List.length]. reflexivity.
Qed.

Lemma annual_return_cons {libm : Libm} (x : pyfloat) (returns : Series.Series) :
  DashboardMetrics.annual_return (x :: returns)
  = Ok (fmul
          (fsub
             (np_power
                (fadd (Fin 1)
                      (fdiv (DashboardMetrics.total_return (x :: returns)) (Fin 100)))
                (fdiv (Fin 252) (of_nat (List.length (x :: returns)))))
             (Fin 1))
          (Fin 100)).
Proof.
  unfold DashboardMetrics.annual_return. cbn [List.length Nat.ltb Nat.leb].
  rewrite py_truediv_of_nat. reflexivity.
Qed.

Lemma performance_metrics_of_cons
  {libm : Libm} (x : pyfloat) (returns : Series.Series)
  (trades_file : option (list Trade)) :
  exists a w,
    DashboardMetrics.annual_return (x :: returns) = Ok a
    /\ w == Spec.win_rate (or_default trades_file [])
    /\ DashboardMetrics.performance_metrics_of (x :: returns) trades_file
       = Ok [("sharpe_ratio",
              VNum (DashboardMetrics.calculate_sharpe_ratio (x :: returns) (Fin 0.02)));
             ("sortino_ratio", VNum (DashboardMetrics.sortino (x :: returns)));
             ("max_drawdown", num 0);
             ("volatility", VNum (DashboardMetrics.volatility (x :: returns)));
             ("win_rate", VNum (Fin w));
             ("total_return_pct", VNum (DashboardMetrics.total_return (x :: returns)));
             ("annual_return_pct", VNum a)].
Proof.
  destruct (get_trade_statistics_win_rate trades_file) as (d & w & Hd & Hw & Hs).
  eexists _, (w / 100). split; [apply annual_return_cons|].
  split; [rewrite Hs; field|].
  unfold DashboardMetrics.performance_metrics_of. cbn [Series.empty].
  rewrite annual_return_cons, Hd. cbn [bind].
  unfold get_default. rewrite Hw. cbn [as_number bind].
  rewrite py_truediv_const by (intro H; discriminate H).
  reflexivity.
Qed.

Lemma filter_length_le {A : Type} (f : A -> bool) (l : list A) :
  (List.length (filter f l) <= List.length l)%nat.
Proof.
  induction l as [|a l IH]; simpl; auto.
  destruct (f a); simpl; lia.
Qed.

Lemma ratio_in_unit_interval (w n : nat) :
  (w <= S n)%nat ->
  0 <= inject_Z (Z.of_nat w) / inject_Z (Z.of_nat (S n)) <= 1.
Proof.
  intros H.
  pose proof (inject_nat_pos n) as Hp.
  pose proof (inject_nat_nonneg w) as Hw.
  assert (Hle : inject_Z (Z.of_nat w) <= inject_Z (Z.of_nat (S n))).
  { rewrite <- Zle_Qle. lia. }
  split.
  - apply Qle_shift_div_l; lra.
  - apply Qle_shift_div_r; lra.
Qed.

(** The loader's win rate always returns a number between 0 and 1. *)
Lemma _calculate_win_rate_bounds (trades : list Trade) :
  exists w,
    DashboardDataLoader._calculate_win_rate trades = Ok (Fin w)
    /\ 0 <= w <= 1.
Proof.
  unfold DashboardDataLoader._calculate_win_rate.
  destruct trades as [|t l].
  - exists 0. split; [reflexivity | lra].
  - cbn [is_nil orb].
    destruct (forallb _ (t :: l)).
    + exists 0. split; [reflexivity | lra].
    + cbn [List.length]. rewrite py_truediv_of_nat.
      unfold of_nat at 1. rewrite fdiv_of_nat.
      eexists. split; [reflexivity|].
      apply ratio_in_unit_interval.
      apply (filter_length_le DashboardDataLoader.pnl_positive (t :: l)).
Qed.

Lemma spec_win_rate_bounds (trades : list Trade) :
  0 <= Spec.win_rate trades <= 1.
Proof.
  unfold Spec.win_rate, Spec.wins.
  destruct (Spec.closed_trades trades) as [|c cs]; [lra|].
  apply ratio_in_unit_interval.
  apply (filter_length_le Spec.is_win (c :: cs)).
Qed.

(** On the statistics path the win rate is the specified one: wins among
    the SELL trades over the number of SELL trades, within [0, 1]. *)
Lemma metrics_win_rate_is_spec
  {libm : Libm} (x : pyfloat) (returns : Series.Series)
  (trades_file : option (list Trade)) :
  exists w,
    field (DashboardMetrics.performance_metrics_of (x :: returns) trades_file)
          "win_rate" = Some (VNum (Fin w))
    /\ w == Spec.win_rate (or_default trades_file [])
    /\ 0 <= w <= 1.
Proof.
  destruct (performance_metrics_of_cons x returns trades_file)
    as (a & w & _ & Hw & Hd).
  exists w. rewrite Hd. split; [reflexivity|]. split; [exact Hw|].
  rewrite Hw. apply spec_win_rate_bounds.
Qed.

(** C2.  On the demo trade history (three SELL trades, two of them winning,
    and four BUY trades with P&L 0) [_calculate_win_rate] returns 2/7: the
    BUY trades are counted in the denominator.  The claimed value, wins
    among SELL trades over SELL trades, is 2/3. *)
Theorem loader_win_rate_counts_buy_trades :
  DashboardDataLoader._calculate_win_rate
    DashboardDataLoader.get_demo_trade_history = Ok (Fin (2 # 7))
  /\ Spec.win_rate DashboardDataLoader.get_demo_trade_history == 2 # 3
  /\ ~ (2 # 7 == Spec.win_rate DashboardDataLoader.get_demo_trade_history).
Proof.
  split; [reflexivity|]. split; [reflexivity|].
  intros H. vm_compute in H. discriminate H.
Qed.

(** ** Series of finite values *)

Lemma dropna_of_list (l : list Q) : Series.dropna (Series.of_list l) = Series.of_list l.
Proof.
  unfold Series.dropna, Series.of_list.
  induction l as [|a l IH]; simpl; auto.
  rewrite IH. reflexivity.
Qed.

Lemma count_of_list (l : list Q) : Series.count (Series.of_list l) = List.length l.
Proof.
  unfold Series.count. rewrite dropna_of_list. apply length_map.
Qed.

Lemma fold_fadd_of_list (l : list Q) (a : Q) :
  fold_left fadd (Series.of_list l) (Fin a) = Fin (fold_left Qplus l a).
Proof.
  revert a. induction l as [|x l IH]; intros a; simpl;
    [reflexivity | apply IH].
Qed.

Lemma fold_fmul_of_list (l : list Q) (a : Q) :
  fold_left fmul (Series.of_list l) (Fin a) = Fin (fold_left Qmult l a).
Proof.
  revert a. induction l as [|x l IH]; intros a; simpl;
    [reflexivity | apply IH].
Qed.

Lemma sum_of_list (l : list Q) : Series.sum (Series.of_list l) = Fin (py_sum l).
Proof.
  unfold Series.sum. rewrite dropna_of_list. apply fold_fadd_of_list.
Qed.

Lemma prod_of_list (l : list Q) :
  Series.prod (Series.of_list l) = Fin (fold_left Qmult l 1).
Proof.
  unfold Series.prod. rewrite dropna_of_list. apply fold_fmul_of_list.
Qed.

(** The mean of finite values is finite, or NaN when there are none. *)
Lemma mean_of_list (l : list Q) :
  Series.mean (Series.of_list l) = NaN
  \/ exists m, Series.mean (Series.of_list l) = Fin m.
Proof.
  unfold Series.mean. rewrite count_of_list, sum_of_list.
  destruct l as [|a l]; [left; reflexivity|]. right.
  cbn [List.length]. rewrite fdiv_of_nat. eexists. reflexivity.
Qed.

Lemma negative_of_list (l : list Q) :
  Series.negative (Series.of_list l)
  = Series.of_list (filter (fun r => flt (Fin r) (Fin 0)) l).
Proof.
  unfold Series.negative, Series.of_list.
  induction l as [|a l IH]; simpl; auto.
  destruct (flt (Fin a) (Fin 0)); simpl; rewrite IH; reflexivity.
Qed.

Lemma negative_empty_iff (l : list Q) :
  Series.negative (Series.of_list l) = [] <-> Forall (fun r => ~ r < 0) l.
Proof.
  rewrite negative_of_list.
  induction l as [|a l IH]; simpl.
  - split; auto.
  - destruct (flt (Fin a) (Fin 0)) eqn:E.
    + split; [discriminate|]. intros H. inversion H; subst.
      apply flt_Fin in E. contradiction.
    + rewrite IH. split; intros H.
      * constructor; auto. intros L. apply flt_Fin in L. congruence.
      * inversion H; auto.
Qed.

Lemma std_singleton {libm : Libm} (x : pyfloat) : Series.std [x] = NaN.
Proof.
  unfold Series.std, Series.count, Series.dropna. simpl.
  destruct (is_nan x); reflexivity.
Qed.

Lemma std_nil {libm : Libm} : Series.std [] = NaN.
Proof. reflexivity. Qed.

(** ** Sharpe ratio *)

(** The guard of [calculate_sharpe_ratio]: 0 on the empty series, on a
    series of fewer than two points and when the standard deviation is 0. *)
Lemma calculate_sharpe_ratio_guard
  {libm : Libm} (returns : Series.Series) (risk_free_rate : pyfloat) :
  returns = [] \/ (List.length returns < 2)%nat
  \/ feqb (Series.std returns) (Fin 0) = true ->
  DashboardMetrics.calculate_sharpe_ratio returns risk_free_rate = Fin 0.
Proof.
  unfold DashboardMetrics.calculate_sharpe_ratio.
  intros [H | [H | H]].
  - subst. reflexivity.
  - apply Nat.ltb_lt in H. rewrite H.
    destruct (Series.empty returns); reflexivity.
  - rewrite H. rewrite !orb_true_r. reflexivity.
Qed.

(** [_calculate_sharpe] has the guard for the empty series and for a zero
    standard deviation only. *)
Lemma _calculate_sharpe_guard {libm : Libm} (returns : Series.Series) :
  returns = [] \/ feqb (Series.std returns) (Fin 0) = true ->
  DashboardDataLoader._calculate_sharpe returns = Fin 0.
Proof.
  unfold DashboardDataLoader._calculate_sharpe.
  intros [H | H].
  - subst. reflexivity.
  - rewrite H, orb_true_r. reflexivity.
Qed.

(** C4.  On a returns series with a single point (an equity curve of two
    days) [_calculate_sharpe] returns NaN: the standard deviation of one
    observation is NaN, which the test [std() == 0] does not catch.
    [calculate_sharpe_ratio], which also tests the length, returns 0 on the
    same series. *)
Theorem loader_sharpe_single_return_is_nan (libm : Libm) :
  DashboardDataLoader._calculate_sharpe (Series.of_list [1 # 20]) = NaN
  /\ DashboardMetrics.calculate_sharpe_ratio (Series.of_list [1 # 20]) (Fin 0.02)
     = Fin 0.
Proof.
  split.
  - unfold DashboardDataLoader._calculate_sharpe.
    cbn [Series.of_list map Series.empty orb]. rewrite std_singleton.
    reflexivity.
  - apply calculate_sharpe_ratio_guard. right. left. simpl. lia.
Qed.

(** ** Sortino ratio *)

Lemma feqb_zero_inv (x : pyfloat) :
  feqb x (Fin 0) = true -> exists z, x = Fin z /\ z == 0.
Proof.
  destruct x as [z| | |]; try discriminate.
  intros H. exists z. split; [reflexivity | apply feqb_Fin; exact H].
Qed.

(** A zero standard deviation stays non-positive after annualisation,
    whatever [np.sqrt] answers. *)
Lemma zero_times_not_positive (x y : pyfloat) :
  feqb x (Fin 0) = true -> fgt (fmul x y) (Fin 0) = false.
Proof.
  intros H. destruct (feqb_zero_inv x H) as (z & -> & Hz).
  destruct y as [s| | |]; simpl.
  - destruct (fgt (Fin (z * s)) (Fin 0)) eqn:E; auto.
    apply fgt_Fin in E. rewrite Hz in E. lra.
  - apply Qeq_alt in Hz. rewrite Hz. reflexivity.
  - assert (H0 : 0 == z) by (symmetry; exact Hz).
    apply Qeq_alt in H0. rewrite H0. reflexivity.
  - reflexivity.
Qed.

(** Dividing a finite value or NaN by a positive value never gives the
    infinite sentinel. *)
Lemma fdiv_by_positive_not_inf (x y : pyfloat) :
  is_finite x || is_nan x = true -> fgt y (Fin 0) = true -> fdiv x y <> PInf.
Proof.
  destruct x as [a| | |]; try discriminate; intros _ Hy.
  destruct y as [b| | |]; try discriminate.
  apply fgt_Fin in Hy. simpl.
  destruct (Qeq_bool b 0) eqn:E; [|discriminate].
  apply Qeq_bool_iff in E. lra.
Qed.

Lemma sortino_numerator_of_list (l : list Q) :
  let x := fsub (fmul (Series.mean (Series.of_list l)) (Fin 252)) (Fin 0.02) in
  is_finite x || is_nan x = true.
Proof.
  destruct (mean_of_list l) as [-> | [m ->]]; reflexivity.
Qed.

(** The local [sortino] is the infinite sentinel exactly when no return is
    negative. *)
Lemma sortino_inf_iff {libm : Libm} (rs : list Q) :
  DashboardMetrics.sortino (Series.of_list rs) = PInf
  <-> Forall (fun r => ~ r < 0) rs.
Proof.
  rewrite <- negative_empty_iff. unfold DashboardMetrics.sortino.
  destruct (Series.negative (Series.of_list rs)) as [|n ns] eqn:E.
  - split; reflexivity.
  - cbn [List.length Nat.ltb Nat.leb]. split; [|discriminate].
    destruct (fgt _ (Fin 0)) eqn:G; [|discriminate].
    intros H. exfalso.
    revert H. apply fdiv_by_positive_not_inf; [|exact G].
    apply sortino_numerator_of_list.
Qed.

Lemma sortino_zero_std {libm : Libm} (returns : Series.Series) :
  feqb (Series.std (Series.negative returns)) (Fin 0) = true ->
  DashboardMetrics.sortino returns = Fin 0.
Proof.
  intros H. unfold DashboardMetrics.sortino.
  rewrite (zero_times_not_positive _ _ H).
  destruct (Nat.ltb 0 _) eqn:L; [reflexivity|].
  destruct (Series.negative returns); [|discriminate L].
  rewrite std_nil in H. discriminate H.
Qed.

Lemma _calculate_sortino_zero_std {libm : Libm} (returns : Series.Series) :
  feqb (Series.std (Series.negative returns)) (Fin 0) = true ->
  DashboardDataLoader._calculate_sortino returns = Fin 0.
Proof.
  intros H. unfold DashboardDataLoader._calculate_sortino.
  rewrite H, orb_true_r. destruct (Series.empty returns); reflexivity.
Qed.

Lemma _calculate_sortino_no_downside {libm : Libm} (rs : list Q) :
  Forall (fun r => ~ r < 0) rs ->
  DashboardDataLoader._calculate_sortino (Series.of_list rs) = Fin 0.
Proof.
  intros H. apply negative_empty_iff in H.
  unfold DashboardDataLoader._calculate_sortino. rewrite H.
  destruct (Series.empty (Series.of_list rs)); reflexivity.
Qed.

Lemma performance_metrics_of_returns
  {libm : Libm} (returns : Series.Series) (trades_file : option (list Trade)) :
  returns_value (DashboardMetrics.performance_metrics_of returns trades_file).
Proof.
  destruct returns as [|x returns].
  - eexists. reflexivity.
  - destruct (performance_metrics_of_cons x returns trades_file)
      as (a & w & _ & _ & H).
    eexists. exact H.
Qed.

Lemma sortino_field_cons
  {libm : Libm} (x : pyfloat) (returns : Series.Series)
  (trades_file : option (list Trade)) :
  field (DashboardMetrics.performance_metrics_of (x :: returns) trades_file)
        "sortino_ratio"
  = Some (VNum (DashboardMetrics.sortino (x :: returns))).
Proof.
  destruct (performance_metrics_of_cons x returns trades_file)
    as (a & w & _ & _ & H).
  rewrite H. reflexivity.
Qed.

(** The field of a record that was returned. *)
Lemma field_of_record (r : result dict) (d : dict) (k : string) (v : option value) :
  field r k = v -> r = Ok d -> get d k = v.
Proof. intros H E. rewrite E in H. exact H. Qed.

(** C3, as the code has it.  In [DashboardMetrics.get_performance_metrics]
    the record returned for a non-empty series of finite returns has the
    infinite sentinel as its Sortino ratio exactly when no return is
    negative, and the record for the empty series has 0 (the zero-default
    record); [_calculate_sortino] returns 0, not the sentinel, when no
    return is negative.  In both, a downside subset whose standard deviation
    is exactly 0 gives 0.  Computing the ratio raises nothing of its own:
    once the returns are known, the record is returned whenever
    [get_trade_statistics] returns for the trade history. *)
Theorem sortino_sentinel_by_path
  (libm : Libm) (rs : list Q) (trades_file : option (list Trade)) :
  (returns_value (DashboardMetrics.get_trade_statistics trades_file) ->
   returns_value
     (DashboardMetrics.performance_metrics_of (Series.of_list rs) trades_file))
  /\ (forall d,
        DashboardMetrics.performance_metrics_of (Series.of_list rs) trades_file
        = Ok d ->
        (rs <> [] ->
         (get d "sortino_ratio" = Some (VNum PInf)
          <-> Forall (fun r => ~ r < 0) rs))
        /\ (rs = [] -> get d "sortino_ratio" = Some (num 0))
        /\ (feqb (Series.std (Series.negative (Series.of_list rs))) (Fin 0) = true ->
            get d "sortino_ratio" = Some (num 0)))
  /\ (Forall (fun r => ~ r < 0) rs ->
      DashboardDataLoader._calculate_sortino (Series.of_list rs) = Fin 0)
  /\ (feqb (Series.std (Series.negative (Series.of_list rs))) (Fin 0) = true ->
      DashboardDataLoader._calculate_sortino (Series.of_list rs) = Fin 0).
Proof.
  split; [intros _; apply performance_metrics_of_returns|].
  split; [|split; [apply _calculate_sortino_no_downside
                  | apply _calculate_sortino_zero_std]].
  intros d Hd. destruct rs as [|r rs].
  - cbn in Hd. injection Hd as <-.
    split; [congruence|]. split; [reflexivity|].
    intros H. rewrite std_nil in H. discriminate H.
  - pose proof (sortino_field_cons (Fin r) (Series.of_list rs) trades_file) as Hf.
    change (Fin r :: Series.of_list rs) with (Series.of_list (r :: rs)) in Hf.
    apply (field_of_record _ d) in Hf; [|exact Hd]. rewrite Hf.
    split; [|split; [discriminate|]].
    + intros _. rewrite <- (sortino_inf_iff (r :: rs)).
      split; intros H; [injection H; auto | rewrite H; reflexivity].
    + intros H. rewrite (sortino_zero_std _ H). reflexivity.
Qed.

(** C3 fails as stated, in three ways.  With no negative return (none at
    all, or two positive ones) the Sortino ratio is 0, not the infinite
    sentinel: on the empty series in
    [DashboardMetrics.get_performance_metrics], and on [0.01, 0.02] in
    [_calculate_sortino].  And with negative returns it is the infinite
    sentinel when a return is infinite: on the equity curve 100, 0, 50, 40,
    30 the returns are -1, +infinity, -0.2 and -0.25, their mean is
    infinite, and so is the ratio. *)
Lemma sortino_zero_without_downside :
  ~ (field (DashboardMetrics.performance_metrics_of
              (libm := Reference.libm) [] None)
           "sortino_ratio" = Some (VNum PInf)
     <-> no_negative [])
  /\ ~ (DashboardDataLoader._calculate_sortino
          (libm := Reference.libm) (Series.of_list [1 # 100; 1 # 50]) = PInf
        <-> no_negative (Series.of_list [1 # 100; 1 # 50]))
  /\ ~ (field (DashboardMetrics.get_performance_metrics
                 (libm := Reference.libm) (Some (points wiped_out_equity)) None 30)
              "sortino_ratio" = Some (VNum PInf)
        <-> no_negative (DashboardMetrics.get_daily_returns
                           (Some (points wiped_out_equity)) 30)).
Proof.
  split; [|split].
  - intros [_ H]. specialize (H (Forall_nil _)). discriminate H.
  - intros [_ H].
    assert (F : no_negative (Series.of_list [1 # 100; 1 # 50]))
      by (repeat constructor).
    specialize (H F). vm_compute in H. discriminate H.
  - intros [H _].
    assert (F : field (DashboardMetrics.get_performance_metrics
                         (libm := Reference.libm)
                         (Some (points wiped_out_equity)) None 30)
                      "sortino_ratio" = Some (VNum PInf))
      by (vm_compute; reflexivity).
    specialize (H F). inversion H as [|x l Hx _]. vm_compute in Hx.
    discriminate Hx.
Qed.

Lemma sortino_sentinel_by_path_witness :
  exists d,
    DashboardMetrics.performance_metrics_of
      (libm := Reference.libm) (Series.of_list [1 # 100; 1 # 50]) None = Ok d
    /\ get d "sortino_ratio" = Some (VNum PInf)
    /\ DashboardDataLoader._calculate_sortino
         (libm := Reference.libm) (Series.of_list [1 # 100; 1 # 50]) = Fin 0.
Proof.
  assert (F : Forall (fun r => ~ r < 0) [1 # 100; 1 # 50]).
  { repeat constructor; intros L; vm_compute in L; discriminate L. }
  destruct (sortino_sentinel_by_path Reference.libm [1 # 100; 1 # 50] None)
    as (H0 & H1 & H2 & _).
  destruct H0 as [d Hd]; [eexists; reflexivity|].
  exists d. split; [exact Hd|].
  destruct (H1 d Hd) as (Hinf & _).
  split; [apply Hinf; [discriminate | exact F] | apply H2; exact F].
Defined.

(** ** Annualised return *)

Lemma map_fadd_of_list (l : list Q) :
  map (fadd (Fin 1)) (Series.of_list l) = Series.of_list (map (Qplus 1) l).
Proof.
  unfold Series.of_list. rewrite !map_map. reflexivity.
Qed.

Lemma fold_left_compound (l : list Q) (a : Q) :
  fold_left Qmult (map (Qplus 1) l) a
  == a * fold_right (fun r acc => (1 + r) * acc) 1 l.
Proof.
  revert a. induction l as [|r l IH]; intros a; simpl.
  - ring.
  - rewrite IH. ring.
Qed.

Lemma compound_of_list (l : list Q) :
  exists p,
    Series.prod (map (fadd (Fin 1)) (Series.of_list l)) = Fin p
    /\ p == 1 + Spec.total_return l.
Proof.
  rewrite map_fadd_of_list, prod_of_list. eexists. split; [reflexivity|].
  rewrite fold_left_compound. unfold Spec.total_return. ring.
Qed.

Lemma _annualize_return_returns {libm : Libm} (returns : Series.Series) :
  returns_value (DashboardDataLoader._annualize_return returns).
Proof.
  unfold DashboardDataLoader._annualize_return.
  destruct returns as [|x returns]; [eexists; reflexivity|].
  cbn [Series.empty List.length Nat.eqb].
  rewrite py_truediv_of_nat. eexists. reflexivity.
Qed.

(** C7.  [_annualize_return] is 0 on the empty series, and on [n > 0]
    returns it is [(1 + total_return) ** (252 / n) - 1], where
    [total_return] is the product of [1 + r] over the returns minus 1. *)
Theorem annualize_return_formula (libm : Libm) (rs : list Q) :
  (rs = [] ->
   DashboardDataLoader._annualize_return (Series.of_list rs) = Ok (Fin 0))
  /\ (rs <> [] ->
      exists base exponent,
        base == 1 + Spec.total_return rs
        /\ exponent == 252 / inject_Z (Z.of_nat (List.length rs))
        /\ DashboardDataLoader._annualize_return (Series.of_list rs)
           = Ok (fsub (np_power (Fin base) (Fin exponent)) (Fin 1))).
Proof.
  split.
  - intros ->. reflexivity.
  - destruct rs as [|r rs]; [congruence|]. intros _.
    unfold DashboardDataLoader._annualize_return.
    destruct (compound_of_list (r :: rs)) as (p & Hp & Hs). rewrite Hp.
    cbn [Series.of_list map Series.empty List.length Nat.eqb].
    rewrite length_map, py_truediv_of_nat, fdiv_of_nat.
    cbn [bind fsub fneg fadd].
    eexists _, _. split; [|split; [|reflexivity]].
    + rewrite Hs. ring.
    + reflexivity.
Qed.

Lemma annualize_return_formula_witness :
  exists base exponent,
    base == 1 + Spec.total_return [1 # 10; - (1 # 20)]
    /\ exponent == 126
    /\ DashboardDataLoader._annualize_return
         (libm := Reference.libm) (Series.of_list [1 # 10; - (1 # 20)])
       = Ok (fsub (@np_power Reference.libm (Fin base) (Fin exponent)) (Fin 1)).
Proof.
  destruct (annualize_return_formula Reference.libm [1 # 10; - (1 # 20)])
    as [_ H].
  destruct H as (base & exponent & Hb & He & H); [discriminate|].
  exists base, exponent. split; [exact Hb|]. split; [|exact H].
  rewrite He. reflexivity.
Defined.

(** In [DashboardMetrics.get_performance_metrics] the same quantity is
    reported as a percentage. *)
Lemma annual_return_is_percentage {libm : Libm} (r : Q) (rs : list Q) :
  exists base exponent,
    base == 1 + Spec.total_return (r :: rs)
    /\ exponent == 252 / inject_Z (Z.of_nat (List.length (r :: rs)))
    /\ DashboardMetrics.annual_return (Series.of_list (r :: rs))
       = Ok (fmul (fsub (np_power (Fin base) (Fin exponent)) (Fin 1)) (Fin 100)).
Proof.
  change (Series.of_list (r :: rs)) with (Fin r :: Series.of_list rs).
  rewrite annual_return_cons.
  change (Fin r :: Series.of_list rs) with (Series.of_list (r :: rs)).
  unfold DashboardMetrics.total_return.
  destruct (compound_of_list (r :: rs)) as (p & Hp & Hs). rewrite Hp.
  unfold Series.of_list at 1. rewrite length_map.
  cbn [List.length]. rewrite fdiv_of_nat.
  cbn [fsub fneg fadd fmul fdiv].
  eexists _, _. split; [|split; [|reflexivity]].
  + rewrite Hs. field.
  + reflexivity.
Qed.

(** ** The performance record *)

Lemma metrics_record_keys
  {libm : Libm} (returns : Series.Series) (trades_file : option (list Trade)) :
  exists d,
    DashboardMetrics.performance_metrics_of returns trades_file = Ok d
    /\ keys d = metrics_fields.
Proof.
  destruct returns as [|x returns].
  - eexists. split; reflexivity.
  - destruct (performance_metrics_of_cons x returns trades_file)
      as (a & w & _ & _ & H).
    rewrite H. eexists. split; reflexivity.
Qed.

(** The record of [DashboardDataLoader.get_performance_metrics] on a
    non-empty equity curve. *)
Lemma loader_record_cons
  {libm : Libm} (p : EquityPoint) (ps : list EquityPoint) (trades : list Trade) :
  let equity := Series.of_list (map equity (p :: ps)) in
  let returns := Series.dropna (Series.pct_change equity) in
  let mdd := DashboardDataLoader._calculate_max_drawdown equity in
  exists total annual w,
    DashboardDataLoader._annualize_return returns = Ok annual
    /\ DashboardDataLoader._calculate_win_rate trades = Ok w
    /\ DashboardDataLoader.get_performance_metrics (p :: ps) trades
       = Ok [("total_return_pct", VNum total);
             ("annual_return_pct", VNum annual);
             ("sharpe_ratio", VNum (DashboardDataLoader._calculate_sharpe returns));
             ("sortino_ratio", VNum (DashboardDataLoader._calculate_sortino returns));
             ("max_drawdown", VNum mdd);
             ("win_rate", VNum w);
             ("volatility",
              VNum (fmul (Series.std returns) (np_sqrt (Fin 252))));
             ("calmar_ratio",
              VNum (if fneb mdd (Fin 0) then fdiv annual (fabs mdd) else Fin 0))].
Proof.
  intros equity0 returns mdd.
  destruct (_annualize_return_returns returns) as [a Ha].
  destruct (_calculate_win_rate_bounds trades) as (w & Hw & _).
  eexists _, a, (Fin w). split; [exact Ha|]. split; [exact Hw|].
  unfold DashboardDataLoader.get_performance_metrics.
  fold equity0. fold returns. rewrite Ha, Hw. fold mdd.
  subst equity0.
  cbn [map Series.of_list Series.iloc_last Series.iloc_first bind
       index get String.eqb Ascii.eqb Bool.eqb as_number].
  destruct (fneb mdd (Fin 0)); reflexivity.
Qed.

(** C6, as the code has it.  For a non-empty equity curve the record of
    [DashboardDataLoader.get_performance_metrics] has the eight fields, with
    [calmar_ratio = annual_return_pct / |max_drawdown|], and 0 when
    [max_drawdown] is 0; for the empty curve the record has no field.  The
    record of [DashboardMetrics.get_performance_metrics] has the other seven
    fields and no [calmar_ratio]. *)
Theorem performance_record_fields
  (libm : Libm) (equity_curve : list EquityPoint) (trades : list Trade)
  (returns : Series.Series) (trades_file : option (list Trade)) :
  (equity_curve <> [] ->
   exists d annual mdd calmar,
     DashboardDataLoader.get_performance_metrics equity_curve trades = Ok d
     /\ keys d = loader_fields
     /\ get d "annual_return_pct" = Some (VNum annual)
     /\ get d "max_drawdown" = Some (VNum mdd)
     /\ get d "calmar_ratio" = Some (VNum calmar)
     /\ (feqb mdd (Fin 0) = true -> calmar = Fin 0)
     /\ (feqb mdd (Fin 0) = false -> calmar = fdiv annual (fabs mdd)))
  /\ DashboardDataLoader.get_performance_metrics [] trades = Ok []
  /\ (exists d,
        DashboardMetrics.performance_metrics_of returns trades_file = Ok d
        /\ keys d = metrics_fields
        /\ get d "calmar_ratio" = None).
Proof.
  split; [|split; [reflexivity|]].
  - destruct equity_curve as [|p ps]; [congruence|]. intros _.
    destruct (loader_record_cons p ps trades) as (t & a & w & _ & _ & H).
    rewrite H. eexists _, a, _, _.
    split; [reflexivity|]. repeat split; try reflexivity.
    + intros E. unfold fneb. rewrite E. reflexivity.
    + intros E. unfold fneb. rewrite E. reflexivity.
  - destruct (metrics_record_keys returns trades_file) as (d & Hd & Hk).
    exists d. repeat split; auto.
    destruct d as [|[k1 v1] [|[k2 v2] [|[k3 v3] [|[k4 v4] [|[k5 v5]
      [|[k6 v6] [|[k7 v7] [|? ?]]]]]]]]; try discriminate Hk.
    injection Hk as -> -> -> -> -> -> ->. reflexivity.
Qed.

(** C6 fails as stated: the record of
    [DashboardMetrics.get_performance_metrics] has no [calmar_ratio], here on
    the equity series 100000, 105000, 95000, 110000, and the record of
    [DashboardDataLoader.get_performance_metrics] on the empty curve has no
    field at all. *)
Lemma performance_record_without_calmar :
  ~ (exists v,
       field (DashboardMetrics.get_performance_metrics
                (libm := Reference.libm)
                (Some (points [100000; 105000; 95000; 110000])) None 30)
             "calmar_ratio" = Some v)
  /\ ~ (exists v,
          field (DashboardDataLoader.get_performance_metrics
                   (libm := Reference.libm) [] [])
                "calmar_ratio" = Some v).
Proof.
  split; intros [v H]; vm_compute in H; discriminate H.
Qed.

Lemma performance_record_fields_witness :
  exists d,
    DashboardDataLoader.get_performance_metrics
      (libm := Reference.libm) (points [100000; 105000; 95000; 110000])
      DashboardDataLoader.get_demo_trade_history = Ok d
    /\ keys d = loader_fields.
Proof.
  destruct (performance_record_fields
              Reference.libm (points [100000; 105000; 95000; 110000])
              DashboardDataLoader.get_demo_trade_history [] None)
    as [H _].
  destruct H as (d & annual & mdd & calmar & Hd & Hk & _); [discriminate|].
  exists d. split; [exact Hd | exact Hk].
Defined.

(** ** Portfolio exposure *)

Lemma fold_left_Qplus (l : list Q) (a : Q) :
  fold_left Qplus l a == a + fold_right Qplus 0 l.
Proof.
  revert a. induction l as [|x l IH]; intros a; simpl.
  - ring.
  - rewrite IH. ring.
Qed.

Lemma total_return_pct_returns (total_equity initial : Q) :
  returns_value
    (if fgt (Fin initial) (Fin 0)
     then r <- py_truediv (Fin total_equity) (Fin initial) ;;
          Ok (fmul (fsub r (Fin 1)) (Fin 100))
     else Ok (Fin 0)).
Proof.
  destruct (fgt (Fin initial) (Fin 0)) eqn:E; [|eexists; reflexivity].
  apply fgt_Fin in E. rewrite py_truediv_const by lra.
  eexists. reflexivity.
Qed.

Lemma get_portfolio_status_some (data : PortfolioState) :
  let positions := or_default (positions data) [] in
  let cash := or_default (cash data) 100000 in
  let invested :=
    py_sum
      (map (fun p =>
              or_default (quantity p) 0
              * or_default (current_price p) (or_default (avg_price p) 0))
           (map snd positions)) in
  exists total_return_pct,
    DashboardDataLoader.get_portfolio_status (Some data)
    = Ok [("total_equity", num (cash + invested));
          ("cash", num cash);
          ("invested", num invested);
          ("positions", VPositions positions);
          ("total_return_pct", VNum total_return_pct);
          ("initial_capital", num (or_default (initial_capital data) 100000))].
Proof.
  intros positions cash invested.
  unfold DashboardDataLoader.get_portfolio_status.
  destruct (total_return_pct_returns
              (cash + invested) (or_default (initial_capital data) 100000))
    as [t Ht].
  fold positions. fold cash. fold invested. rewrite Ht.
  exists t. reflexivity.
Qed.

Lemma get_portfolio_status_record (file : option PortfolioState) :
  exists total_return_pct initial,
    DashboardDataLoader.get_portfolio_status file
    = Ok [("total_equity", num (status_cash file + status_invested file));
          ("cash", num (status_cash file));
          ("invested", num (status_invested file));
          ("positions", VPositions (status_positions file));
          ("total_return_pct", VNum total_return_pct);
          ("initial_capital", num initial)].
Proof.
  destruct file as [data|].
  - destruct (get_portfolio_status_some data) as [t Ht].
    exists t, (or_default (initial_capital data) 100000). exact Ht.
  - exists (Fin 0), 100000. reflexivity.
Qed.

Lemma last_of_list (x : Q) (l : list Q) :
  last (map Fin l) (Fin x) = Fin (last l x).
Proof.
  revert x. induction l as [|y l IH]; intros x; [reflexivity|].
  cbn [map]. destruct l as [|z l]; [reflexivity|].
  change (last (Fin y :: map Fin (z :: l)) (Fin x))
    with (last (map Fin (z :: l)) (Fin x)).
  change (last (y :: z :: l) x) with (last (z :: l) x).
  apply IH.
Qed.

Lemma last_cons_default {A : Type} (x d : A) (l : list A) :
  last (x :: l) d = last l x.
Proof.
  revert x d. induction l as [|y l IH]; intros x d; [reflexivity|].
  change (last (x :: y :: l) d) with (last (y :: l) d).
  rewrite !IH. reflexivity.
Qed.

(** The record [get_risk_status] returns on a portfolio file that was
    parsed, or without one. *)
Lemma get_risk_status_record
  (file : option PortfolioState) (risk_config : dict)
  (equity_curve : list EquityPoint) :
  let total_equity := status_cash file + status_invested file in
  DashboardDataLoader.get_risk_status file risk_config equity_curve
  = Ok [("portfolio_exposure",
         VNum (if fgt (Fin total_equity) (Fin 0)
               then fdiv (Fin (status_invested file)) (Fin total_equity)
               else Fin 0));
        ("max_exposure",
         get_default risk_config "max_portfolio_exposure" (num 0.5));
        ("num_positions",
         VNum (of_nat (List.length (status_positions file))));
        ("max_positions", get_default risk_config "max_positions" (num 3));
        ("current_drawdown", VNum (fabs (current_drawdown_of equity_curve)));
        ("max_drawdown_limit",
         get_default risk_config "max_drawdown_alert" (num 0.15))].
Proof.
  intros total_equity. unfold DashboardDataLoader.get_risk_status.
  destruct (get_portfolio_status_record file) as (t & i & H). rewrite H.
  fold total_equity.
  destruct equity_curve as [|p ps];
    unfold current_drawdown_of;
    cbn [bind get_default get String.eqb Ascii.eqb Bool.eqb as_number len num
         map Series.of_list Series.iloc_last];
    rewrite ?last_of_list, ?last_cons_default;
    (destruct (fgt (Fin total_equity) (Fin 0)) eqn:E;
     [apply fgt_Fin in E; rewrite py_truediv_const by lra|]);
    reflexivity.
Qed.

(** The value the loader invests, position by position. *)
Lemma invested_with_avg_price_is_sum (ps : list (string * Position)) :
  py_sum
    (map (fun p =>
            or_default (quantity p) 0
            * or_default (current_price p) (or_default (avg_price p) 0))
         (map snd ps))
  == invested_value_with_avg_price ps.
Proof.
  unfold py_sum. rewrite fold_left_Qplus, Qplus_0_l.
  induction ps as [|[k p] ps IH]; simpl; [reflexivity|].
  rewrite IH. reflexivity.
Qed.

(** When every position carries a current price, it is the sum of quantity
    times current price. *)
Lemma invested_with_current_price (ps : list (string * Position)) :
  Forall (fun p => current_price (snd p) <> None) ps ->
  invested_value_with_avg_price ps == Spec.invested_value ps.
Proof.
  induction 1 as [|[k p] ps Hp _ IH]; simpl in *; [reflexivity|].
  rewrite IH. destruct (current_price p); [reflexivity | congruence].
Qed.

Lemma portfolio_exposure_of_any_snapshot
  (data : PortfolioState) (risk_config : dict) (equity_curve : list EquityPoint) :
  exists x,
    field (DashboardDataLoader.get_risk_status (Some data) risk_config equity_curve)
          "portfolio_exposure" = Some (VNum (Fin x))
    /\ exposure_of (or_default (cash data) 100000)
                   (invested_value_with_avg_price (or_default (positions data) []))
                   x.
Proof.
  rewrite get_risk_status_record.
  cbn [field get String.eqb Ascii.eqb Bool.eqb].
  pose proof (invested_with_avg_price_is_sum (or_default (positions data) []))
    as Hinv.
  unfold status_cash, status_invested.
  set (inv := py_sum _) in *.
  set (c := or_default (cash data) 100000).
  unfold exposure_of.
  destruct (fgt (Fin (c + inv)) (Fin 0)) eqn:E.
  - apply fgt_Fin in E. cbn [fdiv].
    destruct (Qeq_bool (c + inv) 0) eqn:Z; [apply Qeq_bool_iff in Z; lra|].
    eexists. split; [reflexivity|]. split; intros H.
    + rewrite <- Hinv. reflexivity.
    + rewrite <- Hinv in H. lra.
  - exists 0. split; [reflexivity|]. split; intros H; [|reflexivity].
    rewrite <- Hinv in H. apply fgt_Fin in H. congruence.
Qed.

(** C8, as the code has it.  For every portfolio snapshot,
    [portfolio_exposure] is [invested / total_equity] when
    [total_equity > 0] and 0 otherwise, where [invested] is the sum over the
    positions of quantity times current price, the average price standing
    in for a position that has no current price, and [total_equity] is the
    cash plus [invested]; where every position has its current price this
    is the sum of quantity times current price, and on the snapshot with
    cash 50000 and 100 shares at 500 the exposure is 0.5. *)
Theorem portfolio_exposure_formula :
  (forall (data : PortfolioState) (risk_config : dict)
          (equity_curve : list EquityPoint),
     exists x,
       field (DashboardDataLoader.get_risk_status (Some data) risk_config equity_curve)
             "portfolio_exposure" = Some (VNum (Fin x))
       /\ exposure_of (or_default (cash data) 100000)
                      (invested_value_with_avg_price
                         (or_default (positions data) []))
                      x)
  /\ (forall ps : list (string * Position),
        Forall (fun p => current_price (snd p) <> None) ps ->
        invested_value_with_avg_price ps == Spec.invested_value ps)
  /\ (exists x,
        field (DashboardDataLoader.get_risk_status (Some scenario_portfolio) [] [])
              "portfolio_exposure" = Some (VNum (Fin x))
        /\ x == 1 # 2).
Proof.
  split; [exact portfolio_exposure_of_any_snapshot|].
  split; [exact invested_with_current_price|].
  eexists. split; [vm_compute; reflexivity | reflexivity].
Qed.

(** C8 fails as stated.  A position recorded with its average price only
    is not valued at nothing: on cash 50000 and 100 shares bought at 500,
    without current price, the exposure is 0.5, where the sum of quantity
    times current price is 0 and the exposure of the claim would be 0. *)
Lemma exposure_at_average_price :
  ~ (exists x,
       field (DashboardDataLoader.get_risk_status (Some unpriced_portfolio) [] [])
             "portfolio_exposure" = Some (VNum (Fin x))
       /\ exposure_of (or_default (cash unpriced_portfolio) 100000)
                      (Spec.invested_value
                         (or_default (positions unpriced_portfolio) []))
                      x).
Proof.
  intros (x & Hx & Hpos & _).
  vm_compute in Hx. injection Hx as <-.
  assert (P : 0 < or_default (cash unpriced_portfolio) 100000
                  + Spec.invested_value
                      (or_default (positions unpriced_portfolio) []))
    by (vm_compute; reflexivity).
  specialize (Hpos P). vm_compute in Hpos. discriminate Hpos.
Qed.

Lemma portfolio_exposure_formula_witness :
  (exists x,
     field (DashboardDataLoader.get_risk_status (Some unpriced_portfolio) [] [])
           "portfolio_exposure" = Some (VNum (Fin x))
     /\ x == 50000 / 100000)
  /\ (exists x,
        field (DashboardDataLoader.get_risk_status (Some scenario_portfolio) [] [])
              "portfolio_exposure" = Some (VNum (Fin x))
        /\ x == 50000 / 100000).
Proof.
  destruct portfolio_exposure_formula as (H & _ & _).
  split.
  - destruct (H unpriced_portfolio [] []) as (x & Hx & Hpos & _).
    exists x. split; [exact Hx|]. rewrite Hpos; [reflexivity|].
    vm_compute. reflexivity.
  - destruct (H scenario_portfolio [] []) as (x & Hx & Hpos & _).
    exists x. split; [exact Hx|]. rewrite Hpos; [reflexivity|].
    vm_compute. reflexivity.
Defined.

(** ** Maximum drawdown *)

Section Scaling.
Variable c : Q.
Hypothesis c_pos : 0 < c.

Lemma scaled_inf_cases :
  fmul (Fin c) PInf = PInf /\ fmul (Fin c) NInf = NInf.
Proof.
  simpl.
  assert (H1 : (c ?= 0) = Gt) by (apply Qgt_alt; exact c_pos).
  assert (H2 : (0 ?= c) = Lt) by (apply Qlt_alt; exact c_pos).
  rewrite H1, H2. split; reflexivity.
Qed.

Lemma scaled_is_nan (a b : pyfloat) : scaled c a b -> is_nan a = is_nan b.
Proof.
  unfold scaled. destruct scaled_inf_cases as [P N].
  destruct b; rewrite ?P, ?N; destruct a; simpl; tauto.
Qed.

Lemma scaled_flt (m m' x x' : pyfloat) :
  scaled c m m' -> scaled c x x' -> flt x m = flt x' m'.
Proof.
  unfold scaled. destruct scaled_inf_cases as [P N].
  destruct m' as [qm'| | |], x' as [qx'| | |]; rewrite ?P, ?N;
    destruct m as [qm| | |], x as [qx| | |];
    simpl; try tauto; try reflexivity.
  intros Hm Hx. unfold flt, fcmp.
  destruct (Qcompare_spec qx qm) as [E | L | G];
    destruct (Qcompare_spec qx' qm') as [E' | L' | G'];
    try reflexivity; exfalso; rewrite Hm, Hx in *; nra.
Qed.

Lemma scaled_fmin2 (m m' x x' : pyfloat) :
  scaled c m m' -> scaled c x x' ->
  scaled c (Series.fmin2 m x) (Series.fmin2 m' x').
Proof.
  intros Hm Hx. unfold Series.fmin2.
  rewrite (scaled_flt m m' x x' Hm Hx).
  destruct (flt x' m'); assumption.
Qed.

Lemma scaled_fold_fmin2 (xs ys : Series.Series) :
  Forall2 (scaled c) xs ys ->
  forall a b, scaled c a b ->
  scaled c (fold_left Series.fmin2 xs a) (fold_left Series.fmin2 ys b).
Proof.
  induction 1 as [|x y xs ys Hxy _ IH]; intros a b Hab; simpl; auto.
  apply IH. apply scaled_fmin2; assumption.
Qed.

Lemma scaled_dropna (xs ys : Series.Series) :
  Forall2 (scaled c) xs ys ->
  Forall2 (scaled c) (Series.dropna xs) (Series.dropna ys).
Proof.
  unfold Series.dropna.
  induction 1 as [|x y xs ys Hxy _ IH]; simpl; auto.
  rewrite (scaled_is_nan x y Hxy).
  destruct (is_nan y); simpl; auto.
Qed.

(** The minimum of a series scaled by a positive factor is the scaled
    minimum. *)
Lemma scaled_min (xs ys : Series.Series) :
  Forall2 (scaled c) xs ys -> scaled c (Series.min xs) (Series.min ys).
Proof.
  intros H. apply scaled_dropna in H. unfold Series.min.
  destruct H as [|x y xs' ys' Hxy H]; [exact I|].
  apply scaled_fold_fmin2; assumption.
Qed.

End Scaling.

(** On finite observations [cummax] and [expanding().max()] agree. *)
Lemma cummax_is_expanding_max (l : list Q) (acc : option pyfloat) :
  Series.cummax_from acc (Series.of_list l)
  = Series.expanding_max_from acc (Series.of_list l).
Proof.
  revert acc. induction l as [|x l IH]; intros acc; simpl; [reflexivity|].
  f_equal. apply IH.
Qed.

Lemma expanding_max_of_list (l : list Q) (acc : option Q) :
  Series.expanding_max_from (option_map Fin acc) (Series.of_list l)
  = Series.of_list (running_max_from acc l).
Proof.
  revert acc. induction l as [|x l IH]; intros acc; [reflexivity|].
  cbn [Series.of_list map Series.expanding_max_from running_max_from].
  assert (H : Series.seen_in_window (option_map Fin acc) (Fin x)
              = option_map Fin
                  (Some match acc with None => x | Some a => qmax2 a x end)).
  { unfold Series.seen_in_window, Series.seen, Series.fmax2, qmax2.
    cbn [is_nan is_finite].
    destruct acc as [a|]; cbn [option_map]; [|reflexivity].
    destruct (fgt (Fin x) (Fin a)); reflexivity. }
  rewrite H, IH. reflexivity.
Qed.

Lemma qmax2_is_Qmax (a b y : Q) : a == b -> qmax2 a y == Qmax y b.
Proof.
  intros H. unfold qmax2. destruct (fgt (Fin y) (Fin a)) eqn:E.
  - apply fgt_Fin in E. symmetry. apply Q.max_l. lra.
  - assert (L : y <= a).
    { destruct (Qlt_le_dec a y) as [G|G]; [|exact G].
      apply fgt_Fin in G. congruence. }
    rewrite Q.max_r by lra. exact H.
Qed.

Lemma fold_right_Qmax_shift (y b : Q) (l : list Q) :
  fold_right Qmax (Qmax y b) l == Qmax y (fold_right Qmax b l).
Proof.
  induction l as [|z l IH]; simpl; [reflexivity|].
  rewrite IH, !Q.max_assoc, (Q.max_comm z y). reflexivity.
Qed.

Lemma fdiv_feq (a a' b b' : Q) :
  a == a' -> b == b' -> feq (fdiv (Fin a) (Fin b)) (fdiv (Fin a') (Fin b')).
Proof.
  intros Ha Hb. simpl.
  assert (Z : Qeq_bool b 0 = Qeq_bool b' 0).
  { destruct (Qeq_bool b 0) eqn:E, (Qeq_bool b' 0) eqn:E'; auto.
    - apply Qeq_bool_iff in E. apply Qeq_bool_neq in E'. lra.
    - apply Qeq_bool_iff in E'. apply Qeq_bool_neq in E. lra. }
  rewrite <- Z. destruct (Qeq_bool b 0) eqn:E.
  - assert (C : (a ?= 0) = (a' ?= 0)).
    { destruct (Qcompare_spec a 0), (Qcompare_spec a' 0); auto; lra. }
    rewrite C. destruct (a' ?= 0); exact I.
  - simpl. rewrite Ha, Hb. reflexivity.
Qed.

Lemma Forall2_feq_map_r {A : Type} (xs : Series.Series) (idx : list A)
  (f g : A -> pyfloat) :
  Forall2 feq xs (map f idx) -> (forall i, feq (f i) (g i)) ->
  Forall2 feq xs (map g idx).
Proof.
  revert xs. induction idx as [|i idx IH]; intros xs H Hfg; simpl in *.
  - exact H.
  - inversion H as [|x y xs' ys' Hx Hxs]; subst. constructor.
    + eapply feq_trans; [exact Hx | apply Hfg].
    + apply IH; assumption.
Qed.

Lemma drawdown_tail_is_spec (l : list Q) (a b : Q) :
  a == b ->
  Forall2 feq
    (Series.map2 fdiv
       (Series.map2 fsub (Series.of_list l)
                    (Series.of_list (running_max_from (Some a) l)))
       (Series.of_list (running_max_from (Some a) l)))
    (map (drawdown_after b l) (seq 0 (List.length l))).
Proof.
  revert a b. induction l as [|y l IH]; intros a b Hab; [constructor|].
  cbn [running_max_from Series.of_list map Series.map2 List.length seq
       fsub fneg fadd].
  constructor.
  - unfold drawdown_after. cbn [firstn nth fold_right].
    pose proof (qmax2_is_Qmax a b y Hab) as Hm.
    apply fdiv_feq; [|exact Hm].
    unfold Qminus. rewrite Hm. reflexivity.
  - rewrite <- seq_shift, map_map.
    apply (Forall2_feq_map_r _ _ (drawdown_after (Qmax y b) l)).
    + apply IH. apply qmax2_is_Qmax. exact Hab.
    + intros j. unfold drawdown_after. cbn [firstn nth fold_right].
      pose proof (fold_right_Qmax_shift y b (firstn (S j) l)) as Hs.
      cbn [firstn] in Hs.
      apply fdiv_feq; [|exact Hs].
      unfold Qminus. rewrite Hs. reflexivity.
Qed.

Lemma scaled_one (a b : pyfloat) : feq a b -> scaled 1 a b.
Proof.
  unfold scaled. intros H. eapply feq_trans; [exact H|].
  destruct b; simpl; auto. ring.
Qed.

Lemma scaled_one_inv (a b : pyfloat) : scaled 1 a b -> feq a b.
Proof.
  unfold scaled. intros H. eapply feq_trans; [exact H|].
  destruct b; simpl; auto. ring.
Qed.

Lemma min_feq (xs ys : Series.Series) :
  Forall2 feq xs ys -> feq (Series.min xs) (Series.min ys).
Proof.
  intros H. apply scaled_one_inv. apply scaled_min; [reflexivity|].
  induction H; constructor; auto using scaled_one.
Qed.

(** [_calculate_max_drawdown] is the specified maximum drawdown: the
    minimum over the points of [(equity[i] - prefix_max_i) / prefix_max_i],
    and 0 on the empty series. *)
Lemma loader_max_drawdown_is_spec (equity : list Q) :
  feq (DashboardDataLoader._calculate_max_drawdown (Series.of_list equity))
      (Spec.max_drawdown equity).
Proof.
  destruct equity as [|x l]; [reflexivity|].
  unfold DashboardDataLoader._calculate_max_drawdown, Spec.max_drawdown.
  cbn [Series.of_list map Series.empty].
  change (Fin x :: map Fin l) with (Series.of_list (x :: l)).
  unfold Series.expanding_max.
  pose proof (expanding_max_of_list (x :: l) None) as Hrm.
  cbn [option_map] in Hrm. rewrite Hrm. clear Hrm.
  apply min_feq.
  cbn [running_max_from Series.of_list map Series.map2 List.length seq
       fsub fneg fadd].
  constructor.
  - unfold Spec.drawdown_at, Spec.prefix_max. cbn [firstn nth fold_right].
    apply feq_refl.
  - rewrite <- seq_shift, map_map.
    apply (Forall2_feq_map_r _ _ (drawdown_after x l)).
    + apply drawdown_tail_is_spec. reflexivity.
    + intros j. apply feq_refl.
Qed.

Lemma metrics_max_drawdown_field
  {libm : Libm} (returns : Series.Series) (trades_file : option (list Trade)) :
  field (DashboardMetrics.performance_metrics_of returns trades_file)
        "max_drawdown" = Some (num 0).
Proof.
  destruct returns as [|x returns]; [reflexivity|].
  destruct (performance_metrics_of_cons x returns trades_file)
    as (a & w & _ & _ & H).
  rewrite H. reflexivity.
Qed.

(** The loader reports the specified maximum drawdown. *)
Lemma loader_max_drawdown_field
  {libm : Libm} (p : EquityPoint) (ps : list EquityPoint) (trades : list Trade) :
  exists x,
    field (DashboardDataLoader.get_performance_metrics (p :: ps) trades)
          "max_drawdown" = Some (VNum x)
    /\ feq x (Spec.max_drawdown (map equity (p :: ps))).
Proof.
  destruct (loader_record_cons p ps trades) as (t & a & w & _ & _ & H).
  rewrite H. eexists. split; [reflexivity|].
  apply loader_max_drawdown_is_spec.
Qed.

(** Point by point, the percentage drawdown is 100 times the fractional
    one. *)
Lemma drawdown_points_scaled (es ms : list Q) :
  Forall2 (scaled 100)
    (map (fun x => fmul (fsub x (Fin 1)) (Fin 100))
         (Series.map2 fdiv (Series.of_list es) (Series.of_list ms)))
    (Series.map2 fdiv
       (Series.map2 fsub (Series.of_list es) (Series.of_list ms))
       (Series.of_list ms)).
Proof.
  revert ms. induction es as [|e es IH]; intros [|m ms]; simpl;
    try constructor; [|apply IH].
  unfold scaled. simpl.
  destruct (Qeq_bool m 0) eqn:Z.
  - apply Qeq_bool_iff in Z.
    destruct (Qcompare_spec e 0) as [E | L | G]; simpl.
    + assert (H : (e + - m ?= 0) = Eq) by (apply (proj1 (Qeq_alt _ _)); lra).
      rewrite H. exact I.
    + assert (H : (e + - m ?= 0) = Lt) by (apply (proj1 (Qlt_alt _ _)); lra).
      rewrite H. exact I.
    + assert (H : (e + - m ?= 0) = Gt) by (apply (proj1 (Qgt_alt _ _)); lra).
      rewrite H. exact I.
  - simpl. apply Qeq_bool_neq in Z. field. exact Z.
Qed.




(** C1.  In the record of [DashboardMetrics.get_performance_metrics] the
    field [max_drawdown] is the constant 0, whatever the equity series: on
    100000, 105000, 95000, 110000 it is 0, where the specified value, which
    [_calculate_max_drawdown] returns, is -2/21, about -0.0952. *)
Theorem metrics_max_drawdown_is_constant_zero (libm : Libm) :
  (forall daily_logs trades_file days,
     field (DashboardMetrics.get_performance_metrics daily_logs trades_file days)
           "max_drawdown" = Some (num 0))
  /\ field (DashboardMetrics.get_performance_metrics
              (Some (points scenario_equity)) None 30)
           "max_drawdown" = Some (num 0)
  /\ feq (Spec.max_drawdown scenario_equity) (Fin (- (2 # 21)))
  /\ feq (DashboardDataLoader._calculate_max_drawdown
            (Series.of_list scenario_equity))
         (Fin (- (2 # 21)))
  /\ Qabs (- (2 # 21) - - 0.0952) < 0.0001.
Proof.
  assert (H : forall daily_logs trades_file days,
             field (DashboardMetrics.get_performance_metrics
                      daily_logs trades_file days)
                   "max_drawdown" = Some (num 0)).
  { intros. apply metrics_max_drawdown_field. }
  split; [exact H|]. split; [apply H|].
  repeat split; vm_compute; reflexivity.
Qed.

(** ** Missing and empty inputs *)

(** C5, as the code has it.  Without equity data and trades, the
    computations of [DashboardMetrics] return their all-zero records (seven
    fields for the performance metrics, six for the trade statistics), the
    scalar helpers of both classes return 0, and
    [DashboardDataLoader.get_performance_metrics] returns the record without
    fields; none raises. *)
Theorem empty_input_defaults
  (libm : Libm) (trades_file : option (list Trade)) (trades : list Trade)
  (days : nat) (risk_free_rate : pyfloat) :
  DashboardMetrics.get_performance_metrics None trades_file days
    = Ok zero_performance_record
  /\ DashboardMetrics.get_performance_metrics (Some []) trades_file days
    = Ok zero_performance_record
  /\ DashboardMetrics.get_trade_statistics None = Ok zero_trade_record
  /\ DashboardMetrics.get_trade_statistics (Some []) = Ok zero_trade_record
  /\ DashboardMetrics.get_daily_returns None days = []
  /\ DashboardMetrics.get_daily_returns (Some []) days = []
  /\ DashboardMetrics.calculate_sharpe_ratio [] risk_free_rate = Fin 0
  /\ DashboardMetrics.calculate_max_drawdown [] = Fin 0
  /\ DashboardDataLoader.get_performance_metrics [] trades = Ok []
  /\ DashboardDataLoader._annualize_return [] = Ok (Fin 0)
  /\ DashboardDataLoader._calculate_sharpe [] = Fin 0
  /\ DashboardDataLoader._calculate_sortino [] = Fin 0
  /\ DashboardDataLoader._calculate_max_drawdown [] = Fin 0
  /\ DashboardDataLoader._calculate_win_rate [] = Ok (Fin 0).
Proof.
  repeat split; reflexivity.
Qed.

(** C5 fails as stated: on the empty equity curve the record of
    [DashboardDataLoader.get_performance_metrics] is not the record with all
    fields present and 0, it has no field; and the all-zero records of
    [DashboardMetrics] lack [calmar_ratio] and [best_trade]. *)
Lemma loader_empty_record_has_no_field :
  ~ (forall k,
       In k loader_fields ->
       field (DashboardDataLoader.get_performance_metrics
                (libm := Reference.libm) [] [])
             k = Some (num 0))
  /\ ~ (forall k,
          In k loader_fields ->
          field (DashboardMetrics.get_performance_metrics
                   (libm := Reference.libm) None None 30)
                k = Some (num 0))
  /\ field (DashboardMetrics.get_trade_statistics None) "best_trade" = None.
Proof.
  split; [|split; [|reflexivity]]; intros H.
  - specialize (H "max_drawdown").
    assert (I : In "max_drawdown" loader_fields) by (simpl; tauto).
    specialize (H I). discriminate H.
  - specialize (H "calmar_ratio").
    assert (I : In "calmar_ratio" loader_fields) by (simpl; tauto).
    specialize (H I). discriminate H.
Qed.

(** ** Missing portfolio file *)

(** C10.  Without a portfolio state file [get_portfolio_status] reports the
    initial capital (equity and cash 100000, return 0) while
    [get_portfolio_summary] reports 0 in every field: the two fallbacks are
    different records. *)
Theorem missing_portfolio_fallbacks_differ :
  field (DashboardDataLoader.get_portfolio_status None) "total_equity"
    = Some (num 100000)
  /\ field (DashboardDataLoader.get_portfolio_status None) "cash"
    = Some (num 100000)
  /\ field (DashboardDataLoader.get_portfolio_status None) "total_return_pct"
    = Some (num 0)
  /\ DashboardMetrics.get_portfolio_summary None
    = Ok [("total_equity", num 0); ("cash", num 0); ("positions_value", num 0);
          ("total_return_pct", num 0); ("unrealized_pnl", num 0)]
  /\ DashboardDataLoader.get_portfolio_status None
     <> DashboardMetrics.get_portfolio_summary None.
Proof.
  repeat split; try reflexivity.
  intros H. discriminate H.
Qed.

(** * Further properties of the code *)

(** ** Drawdown series *)

Lemma fold_fmin2_In (xs : Series.Series) (a : pyfloat) :
  In (fold_left Series.fmin2 xs a) (a :: xs).
Proof.
  revert a. induction xs as [|x xs IH]; intros a; simpl; [left; reflexivity|].
  destruct (IH (Series.fmin2 a x)) as [H | H].
  - unfold Series.fmin2 in H at 1.
    destruct (flt x a); [right; left | left]; exact H.
  - right. right. exact H.
Qed.

(** The minimum of a series with an observation is one of its
    observations. *)
Lemma min_In (s : Series.Series) :
  Series.dropna s <> [] -> In (Series.min s) (Series.dropna s).
Proof.
  unfold Series.min. destruct (Series.dropna s) as [|x xs]; [congruence|].
  intros _. apply fold_fmin2_In.
Qed.

Lemma dropna_fin_sat (P : Q -> Prop) (s : Series.Series) :
  Forall (fin_sat P) s -> Series.dropna s = s.
Proof.
  unfold Series.dropna.
  induction 1 as [|x s [q [-> _]] _ IH]; simpl; [reflexivity|].
  rewrite IH. reflexivity.
Qed.

Lemma min_fin_sat (P : Q -> Prop) (s : Series.Series) :
  s <> [] -> Forall (fin_sat P) s -> fin_sat P (Series.min s).
Proof.
  intros Hne H. pose proof (dropna_fin_sat P s H) as Hd.
  assert (Hin : In (Series.min s) s).
  { rewrite <- Hd at 2. apply min_In. rewrite Hd. exact Hne. }
  rewrite Forall_forall in H. apply H. exact Hin.
Qed.

Lemma qmax2_ge (a x : Q) : a <= qmax2 a x /\ x <= qmax2 a x.
Proof.
  unfold qmax2. destruct (fgt (Fin x) (Fin a)) eqn:E.
  - apply fgt_Fin in E. lra.
  - split; [lra|]. destruct (Qlt_le_dec a x) as [G|G]; [|exact G].
    apply fgt_Fin in G. congruence.
Qed.

Lemma drawdown_point_bounds (x m : Q) :
  0 < x -> x <= m ->
  fin_sat (fun q => - (1) < q <= 0) (fdiv (fsub (Fin x) (Fin m)) (Fin m)).
Proof.
  intros Hx Hm. cbn [fsub fneg fadd fdiv].
  destruct (Qeq_bool m 0) eqn:Z; [apply Qeq_bool_iff in Z; lra|].
  eexists. split; [reflexivity|]. split.
  - apply Qlt_shift_div_l; lra.
  - apply Qle_shift_div_r; lra.
Qed.

(** The drawdown column of a positive equity series lies in (-1, 0]. *)
Lemma drawdown_column_bounds (l : list Q) (acc : option Q) :
  Forall (fun x => 0 < x) l ->
  Forall (fin_sat (fun q => - (1) < q <= 0))
    (Series.map2 fdiv
       (Series.map2 fsub (Series.of_list l)
                    (Series.of_list (running_max_from acc l)))
       (Series.of_list (running_max_from acc l))).
Proof.
  intros H. revert acc. induction H as [|x l Hx _ IH]; intros acc.
  - constructor.
  - cbn [running_max_from Series.of_list map Series.map2]. constructor.
    + apply drawdown_point_bounds; [exact Hx|].
      destruct acc as [a|]; [apply qmax2_ge | lra].
    + apply IH.
Qed.

Lemma drawdown_column_length (l : list Q) (acc : option Q) :
  List.length
    (Series.map2 fdiv
       (Series.map2 fsub (Series.of_list l)
                    (Series.of_list (running_max_from acc l)))
       (Series.of_list (running_max_from acc l)))
  = List.length l.
Proof.
  revert acc. induction l as [|x l IH]; intros acc; [reflexivity|].
  cbn [running_max_from Series.of_list map Series.map2 List.length].
  f_equal. apply IH.
Qed.

Lemma loader_drawdown_column (l : list Q) :
  Series.map2 fdiv
    (Series.map2 fsub (Series.of_list l) (Series.expanding_max (Series.of_list l)))
    (Series.expanding_max (Series.of_list l))
  = Series.map2 fdiv
      (Series.map2 fsub (Series.of_list l)
                   (Series.of_list (running_max_from None l)))
      (Series.of_list (running_max_from None l)).
Proof.
  unfold Series.expanding_max.
  pose proof (expanding_max_of_list l None) as H. cbn [option_map] in H.
  rewrite H. reflexivity.
Qed.

Lemma loader_max_drawdown_bounds (equity : list Q) :
  equity <> [] -> Forall (fun x => 0 < x) equity ->
  exists d,
    DashboardDataLoader._calculate_max_drawdown (Series.of_list equity) = Fin d
    /\ - (1) < d <= 0.
Proof.
  intros Hne Hpos. unfold DashboardDataLoader._calculate_max_drawdown.
  destruct equity as [|x l]; [congruence|].
  change (Series.empty (Series.of_list (x :: l))) with false. cbv iota.
  rewrite loader_drawdown_column.
  apply (min_fin_sat (fun q => - (1) < q <= 0)).
  - cbn [running_max_from Series.of_list map Series.map2]. discriminate.
  - apply drawdown_column_bounds. exact Hpos.
Qed.

(** X1.  On a non-empty series of positive equity values
    [_calculate_max_drawdown] returns a finite fraction in (-1, 0]. *)
Theorem loader_max_drawdown_sign (equity : list Q) :
  equity <> [] -> Forall (fun x => 0 < x) equity ->
  exists d,
    DashboardDataLoader._calculate_max_drawdown (Series.of_list equity) = Fin d
    /\ - (1) < d <= 0.
Proof.
  exact (loader_max_drawdown_bounds equity).
Qed.

Lemma loader_max_drawdown_sign_witness :
  exists d,
    DashboardDataLoader._calculate_max_drawdown (Series.of_list scenario_equity)
    = Fin d
    /\ - (1) < d <= 0.
Proof.
  apply loader_max_drawdown_sign; [discriminate|].
  repeat constructor.
Defined.

(** [calculate_max_drawdown] is 100 times [_calculate_max_drawdown] on
    every series of finite values. *)
Lemma calculate_max_drawdown_scaled (equity : list Q) :
  feq (DashboardMetrics.calculate_max_drawdown (Series.of_list equity))
      (fmul (Fin 100)
            (DashboardDataLoader._calculate_max_drawdown (Series.of_list equity))).
Proof.
  destruct equity as [|e es]; [simpl; ring|].
  unfold DashboardMetrics.calculate_max_drawdown,
    DashboardDataLoader._calculate_max_drawdown.
  change (Series.empty (Series.of_list (e :: es))) with false. cbv iota.
  unfold Series.cummax, Series.expanding_max.
  rewrite cummax_is_expanding_max.
  pose proof (expanding_max_of_list (e :: es) None) as Hrm.
  cbn [option_map] in Hrm. rewrite Hrm. clear Hrm.
  apply (scaled_min 100); [reflexivity|].
  apply drawdown_points_scaled.
Qed.

(** X2.  On a non-empty series of positive equity values
    [calculate_max_drawdown] returns a finite percentage in (-100, 0]. *)
Theorem metrics_max_drawdown_sign (equity : list Q) :
  equity <> [] -> Forall (fun x => 0 < x) equity ->
  exists p,
    DashboardMetrics.calculate_max_drawdown (Series.of_list equity) = Fin p
    /\ - (100) < p <= 0.
Proof.
  intros Hne Hpos.
  destruct (loader_max_drawdown_bounds equity Hne Hpos) as (d & Hd & Hb).
  pose proof (calculate_max_drawdown_scaled equity) as H.
  rewrite Hd in H.
  destruct (DashboardMetrics.calculate_max_drawdown (Series.of_list equity))
    as [p| | |]; simpl in H; try contradiction.
  exists p. split; [reflexivity|]. rewrite H. lra.
Qed.

Lemma metrics_max_drawdown_sign_witness :
  exists p,
    DashboardMetrics.calculate_max_drawdown (Series.of_list scenario_equity)
    = Fin p
    /\ - (100) < p <= 0.
Proof.
  apply metrics_max_drawdown_sign; [discriminate|].
  repeat constructor.
Defined.

(** ** When the drawdown is zero *)

Lemma fold_fmin2_lower (xs : list Q) (a : Q) :
  exists d,
    fold_left Series.fmin2 (Series.of_list xs) (Fin a) = Fin d
    /\ d <= a /\ Forall (fun q => d <= q) xs.
Proof.
  revert a. induction xs as [|x xs IH]; intros a.
  - exists a. repeat split; [lra | constructor].
  - cbn [Series.of_list map fold_left]. unfold Series.fmin2 at 2.
    destruct (flt (Fin x) (Fin a)) eqn:E.
    + apply flt_Fin in E.
      destruct (IH x) as (d & Hd & Hx & Hall).
      exists d. unfold Series.of_list in Hd. rewrite Hd.
      repeat split; [lra|]. constructor; assumption.
    + assert (L : a <= x).
      { destruct (Qlt_le_dec x a) as [G|G]; [|exact G].
        apply flt_Fin in G. congruence. }
      destruct (IH a) as (d & Hd & Ha & Hall).
      exists d. unfold Series.of_list in Hd. rewrite Hd.
      repeat split; [lra|]. constructor; [lra | assumption].
Qed.

(** The minimum of finite values is below each of them. *)
Lemma min_of_list_lower (x : Q) (xs : list Q) :
  exists d,
    Series.min (Series.of_list (x :: xs)) = Fin d
    /\ Forall (fun q => d <= q) (x :: xs).
Proof.
  unfold Series.min. rewrite dropna_of_list.
  cbn [Series.of_list map].
  destruct (fold_fmin2_lower xs x) as (d & Hd & Hx & Hall).
  exists d. unfold Series.of_list in Hd. rewrite Hd.
  split; [reflexivity|]. constructor; assumption.
Qed.

Lemma drawdown_column_after (l : list Q) (a : Q) :
  0 < a ->
  Series.map2 fdiv
    (Series.map2 fsub (Series.of_list l)
                 (Series.of_list (running_max_from (Some a) l)))
    (Series.of_list (running_max_from (Some a) l))
  = Series.of_list (drawdowns_after a l).
Proof.
  revert a. induction l as [|x l IH]; intros a Ha; [reflexivity|].
  cbn [running_max_from Series.of_list map Series.map2 drawdowns_after
       fsub fneg fadd fdiv].
  pose proof (qmax2_ge a x) as [Hm _].
  destruct (Qeq_bool (qmax2 a x) 0) eqn:Z; [apply Qeq_bool_iff in Z; lra|].
  f_equal. apply IH. lra.
Qed.

Lemma Sorted_Qle_head_eq (a b : Q) (l : list Q) :
  a == b -> Sorted Qle (a :: l) -> Sorted Qle (b :: l).
Proof.
  intros E H. inversion H as [|? ? Hs Hh]; subst. constructor; [exact Hs|].
  destruct Hh as [|y l' Hy]; constructor. lra.
Qed.

Lemma drawdowns_after_bounds (l : list Q) (a : Q) :
  0 < a -> Forall (fun q => q <= 0) (drawdowns_after a l).
Proof.
  revert a. induction l as [|x l IH]; intros a Ha; [constructor|].
  cbn [drawdowns_after]. pose proof (qmax2_ge a x) as [Hm Hx].
  constructor; [|apply IH; lra].
  apply Qle_shift_div_r; lra.
Qed.

(** After a positive running maximum, the drawdowns are all zero exactly
    when the values never fall below what came before. *)
Lemma drawdowns_zero_iff_sorted (l : list Q) (a : Q) :
  0 < a ->
  Forall (fun q => q == 0) (drawdowns_after a l)
  <-> Sorted Qle (a :: l).
Proof.
  revert a. induction l as [|x l IH]; intros a Ha.
  - split; intros _; repeat constructor.
  - cbn [drawdowns_after]. pose proof (qmax2_ge a x) as [Hm Hx].
    assert (Hpos : 0 < qmax2 a x) by lra.
    assert (Hz : (x - qmax2 a x) / qmax2 a x == 0 <-> x == qmax2 a x).
    { split; intros H.
      - assert (E : x - qmax2 a x == 0 * qmax2 a x).
        { rewrite <- H. field. lra. }
        lra.
      - rewrite <- H. field. lra. }
    split; intros H.
    + inversion H as [|? ? H0 Hrest]; subst.
      apply Hz in H0. apply (IH _ Hpos) in Hrest.
      constructor.
      * apply (Sorted_Qle_head_eq (qmax2 a x)); [symmetry; exact H0 | exact Hrest].
      * constructor. lra.
    + inversion H as [|? ? Hs Hh]; subst.
      inversion Hh as [|? ? Hax]; subst.
      assert (E : x == qmax2 a x).
      { unfold qmax2 in *. destruct (fgt (Fin x) (Fin a)); lra. }
      constructor; [apply Hz; exact E|].
      apply (IH _ Hpos). apply (Sorted_Qle_head_eq x); assumption.
Qed.

Lemma loader_max_drawdown_after (x : Q) (l : list Q) :
  0 < x ->
  DashboardDataLoader._calculate_max_drawdown (Series.of_list (x :: l))
  = Series.min (Series.of_list ((x - x) / x :: drawdowns_after x l)).
Proof.
  intros Hx. unfold DashboardDataLoader._calculate_max_drawdown.
  change (Series.empty (Series.of_list (x :: l))) with false. cbv iota.
  rewrite loader_drawdown_column.
  cbn [running_max_from Series.of_list map Series.map2 fsub fneg fadd fdiv].
  destruct (Qeq_bool x 0) eqn:Z; [apply Qeq_bool_iff in Z; lra|].
  pose proof (drawdown_column_after l x Hx) as H.
  unfold Series.of_list in H. rewrite H. reflexivity.
Qed.

(** X3.  For positive equity values, [_calculate_max_drawdown] is 0 exactly
    when the series never decreases from one point to the next. *)
Theorem loader_max_drawdown_zero_iff (equity : list Q) :
  equity <> [] -> Forall (fun x => 0 < x) equity ->
  (feq (DashboardDataLoader._calculate_max_drawdown (Series.of_list equity))
       (Fin 0)
   <-> Sorted Qle equity).
Proof.
  intros Hne Hpos. destruct equity as [|x l]; [congruence|].
  inversion Hpos as [|? ? Hx Hl]; subst.
  rewrite (loader_max_drawdown_after x l Hx).
  rewrite <- (drawdowns_zero_iff_sorted l x Hx).
  destruct (min_of_list_lower ((x - x) / x) (drawdowns_after x l))
    as (d & Hd & Hlow).
  rewrite Hd. cbn [feq].
  assert (Hin : In (Fin d) (Series.of_list ((x - x) / x :: drawdowns_after x l))).
  { rewrite <- Hd. rewrite <- (dropna_of_list (_ :: _)) at 2. apply min_In.
    rewrite dropna_of_list. discriminate. }
  apply in_map_iff in Hin. destruct Hin as (q & Hq & Hin).
  injection Hq as ->.
  pose proof (drawdowns_after_bounds l x Hx) as Hup.
  inversion Hlow as [|? ? H0 Hrest]; subst.
  split; intros H.
  - rewrite Forall_forall in *. intros y Hy.
    specialize (Hrest y Hy). specialize (Hup y Hy). lra.
  - destruct Hin as [E | Hin].
    + rewrite <- E. field. lra.
    + rewrite Forall_forall in H. apply H. exact Hin.
Qed.

Lemma loader_max_drawdown_zero_iff_witness :
  feq (DashboardDataLoader._calculate_max_drawdown
         (Series.of_list [100000; 105000; 105000; 110000]))
      (Fin 0).
Proof.
  apply loader_max_drawdown_zero_iff; [discriminate | |].
  - repeat constructor.
  - repeat constructor; intros H; vm_compute in H; discriminate H.
Defined.

(** ** [get_drawdown_data] *)

Lemma combine_fst {A B : Type} (a : list A) (b : list B) :
  List.length a = List.length b -> map fst (combine a b) = a.
Proof.
  revert b. induction a as [|x a IH]; intros [|y b] H; simpl in *;
    try discriminate; [reflexivity|].
  f_equal. apply IH. congruence.
Qed.

Lemma combine_snd {A B : Type} (a : list A) (b : list B) :
  List.length a = List.length b -> map snd (combine a b) = b.
Proof.
  revert b. induction a as [|x a IH]; intros [|y b] H; simpl in *;
    try discriminate; [reflexivity|].
  f_equal. apply IH. congruence.
Qed.

Lemma get_drawdown_data_columns (p : EquityPoint) (ps : list EquityPoint) :
  let l := map equity (p :: ps) in
  map fst (DashboardDataLoader.get_drawdown_data (p :: ps)) = map date (p :: ps)
  /\ map snd (DashboardDataLoader.get_drawdown_data (p :: ps))
     = Series.map2 fdiv
         (Series.map2 fsub (Series.of_list l)
                      (Series.of_list (running_max_from None l)))
         (Series.of_list (running_max_from None l)).
Proof.
  intros l. unfold DashboardDataLoader.get_drawdown_data.
  fold l. rewrite (loader_drawdown_column l).
  assert (Hlen : List.length (map date (p :: ps))
                 = List.length
                     (Series.map2 fdiv
                        (Series.map2 fsub (Series.of_list l)
                           (Series.of_list (running_max_from None l)))
                        (Series.of_list (running_max_from None l)))).
  { rewrite drawdown_column_length. unfold l. rewrite !length_map. reflexivity. }
  split; [apply combine_fst | apply combine_snd]; exact Hlen.
Qed.

(** X4.  [get_drawdown_data] returns one row per row of the equity curve,
    with the same dates in the same order, and the minimum of its drawdown
    column is the value [_calculate_max_drawdown] reports for the curve. *)
Theorem get_drawdown_data_matches_max_drawdown (equity_curve : list EquityPoint) :
  map fst (DashboardDataLoader.get_drawdown_data equity_curve)
  = map date equity_curve
  /\ (equity_curve <> [] ->
      Series.min (map snd (DashboardDataLoader.get_drawdown_data equity_curve))
      = DashboardDataLoader._calculate_max_drawdown
          (Series.of_list (map equity equity_curve))).
Proof.
  destruct equity_curve as [|p ps]; [split; [reflexivity | congruence]|].
  destruct (get_drawdown_data_columns p ps) as [Hd Hs].
  split; [exact Hd|]. intros _. rewrite Hs.
  unfold DashboardDataLoader._calculate_max_drawdown.
  change (Series.empty (Series.of_list (map equity (p :: ps)))) with false.
  cbv iota. rewrite loader_drawdown_column. reflexivity.
Qed.

Lemma get_drawdown_data_matches_max_drawdown_witness :
  Series.min
    (map snd (DashboardDataLoader.get_drawdown_data (points scenario_equity)))
  = DashboardDataLoader._calculate_max_drawdown
      (Series.of_list (map equity (points scenario_equity))).
Proof.
  apply get_drawdown_data_matches_max_drawdown. discriminate.
Defined.

(** X5.  On a curve of positive equity values every drawdown that
    [get_drawdown_data] reports is a finite fraction in (-1, 0], and the
    first one is 0. *)
Theorem get_drawdown_data_bounds (equity_curve : list EquityPoint) :
  Forall (fun p => 0 < equity p) equity_curve ->
  Forall (fun row => exists d, snd row = Fin d /\ - (1) < d <= 0)
         (DashboardDataLoader.get_drawdown_data equity_curve)
  /\ (forall row rows,
        DashboardDataLoader.get_drawdown_data equity_curve = row :: rows ->
        feq (snd row) (Fin 0)).
Proof.
  intros Hpos. destruct equity_curve as [|p ps].
  - split; [constructor | discriminate].
  - destruct (get_drawdown_data_columns p ps) as [_ Hs].
    assert (Hl : Forall (fun x => 0 < x) (map equity (p :: ps))).
    { apply Forall_map. exact Hpos. }
    split.
    + pose proof (drawdown_column_bounds _ None Hl) as H.
      rewrite <- Hs in H. rewrite Forall_map in H. exact H.
    + intros row rows E. rewrite E in Hs. cbn [map] in Hs.
      cbn [running_max_from Series.of_list map Series.map2 fsub fneg fadd fdiv]
        in Hs.
      inversion Hpos as [|? ? Hp _]; subst.
      destruct (Qeq_bool (equity p) 0) eqn:Z; [apply Qeq_bool_iff in Z; lra|].
      injection Hs as Hrow _. rewrite Hrow. simpl. field. lra.
Qed.

Lemma get_drawdown_data_bounds_witness :
  Forall (fun row => exists d, snd row = Fin d /\ - (1) < d <= 0)
         (DashboardDataLoader.get_drawdown_data (points scenario_equity)).
Proof.
  apply get_drawdown_data_bounds. repeat constructor.
Defined.

(** ** [get_risk_status] *)

Lemma fold_fmax2_upper (xs : list Q) (a : Q) :
  exists d,
    fold_left Series.fmax2 (Series.of_list xs) (Fin a) = Fin d
    /\ a <= d /\ Forall (fun q => q <= d) xs.
Proof.
  revert a. induction xs as [|x xs IH]; intros a.
  - exists a. repeat split; [lra | constructor].
  - cbn [Series.of_list map fold_left]. unfold Series.fmax2 at 2.
    destruct (fgt (Fin x) (Fin a)) eqn:E.
    + apply fgt_Fin in E.
      destruct (IH x) as (d & Hd & Hx & Hall).
      exists d. unfold Series.of_list in Hd. rewrite Hd.
      repeat split; [lra|]. constructor; assumption.
    + assert (L : x <= a).
      { destruct (Qlt_le_dec a x) as [G|G]; [|exact G].
        apply fgt_Fin in G. congruence. }
      destruct (IH a) as (d & Hd & Ha & Hall).
      exists d. unfold Series.of_list in Hd. rewrite Hd.
      repeat split; [lra|]. constructor; [lra | assumption].
Qed.

(** The maximum of finite values is above each of them. *)
Lemma max_of_list_upper (x : Q) (xs : list Q) :
  exists d,
    Series.max (Series.of_list (x :: xs)) = Fin d
    /\ Forall (fun q => q <= d) (x :: xs).
Proof.
  unfold Series.max. rewrite dropna_of_list.
  cbn [Series.of_list map].
  destruct (fold_fmax2_upper xs x) as (d & Hd & Hx & Hall).
  exists d. unfold Series.of_list in Hd. rewrite Hd.
  split; [reflexivity|]. constructor; assumption.
Qed.

Lemma last_In {A : Type} (x : A) (l : list A) : In (last l x) (x :: l).
Proof.
  revert x. induction l as [|y l IH]; intros x; [left; reflexivity|].
  rewrite last_cons_default. right. apply IH.
Qed.

Lemma current_drawdown_nonneg (equity_curve : list EquityPoint) :
  exists x,
    fabs (current_drawdown_of equity_curve) = Fin x
    /\ 0 <= x
    /\ (Forall (fun p => 0 < equity p) equity_curve -> x < 1).
Proof.
  destruct equity_curve as [|p ps].
  - exists (Qabs 0). split; [reflexivity|].
    split; [apply Qabs_nonneg | intros _; reflexivity].
  - unfold current_drawdown_of. cbn [map].
    destruct (max_of_list_upper (equity p) (map equity ps)) as (m & Hm & Hup).
    cbn [Series.of_list map] in Hm. cbn [Series.of_list map]. rewrite Hm.
    set (c := last (equity p :: map equity ps) 0).
    assert (Hc : In c (equity p :: map equity ps)).
    { unfold c. rewrite last_cons_default. apply last_In. }
    assert (Hcm : c <= m).
    { rewrite Forall_forall in Hup. apply Hup. exact Hc. }
    destruct (fgt (Fin m) (Fin 0)) eqn:E.
    + apply fgt_Fin in E. cbn [fsub fneg fadd fdiv].
      destruct (Qeq_bool m 0) eqn:Z; [apply Qeq_bool_iff in Z; lra|].
      cbn [fabs]. eexists. split; [reflexivity|].
      split; [apply Qabs_nonneg|]. intros Hpos.
      assert (Hcp : 0 < c).
      { rewrite Forall_forall in Hpos.
        change (equity p :: map equity ps) with (map equity (p :: ps)) in Hc.
        apply in_map_iff in Hc. destruct Hc as (r & <- & Hr).
        apply Hpos. exact Hr. }
      assert (Hle : (c + - m) / m <= 0) by (apply Qle_shift_div_r; lra).
      assert (Hgt : - (1) < (c + - m) / m) by (apply Qlt_shift_div_l; lra).
      rewrite Qabs_neg by exact Hle. lra.
    + exists (Qabs 0). split; [reflexivity|].
    split; [apply Qabs_nonneg | intros _; reflexivity].
Qed.

(** X6.  A record that [get_risk_status] returns has six fields:
    exposure, exposure limit, number of positions, position limit, current
    drawdown and drawdown limit.  Its [num_positions] is the number of
    positions of the portfolio (0 without a file or without positions), its
    exposure is 0 when the total equity is not positive (the guard that
    stands before the division), and its current drawdown is 0 on an empty
    equity curve. *)
Theorem get_risk_status_fields
  (file : option PortfolioState) (risk_config : dict)
  (equity_curve : list EquityPoint) (d : dict) :
  DashboardDataLoader.get_risk_status file risk_config equity_curve = Ok d ->
  keys d = ["portfolio_exposure"; "max_exposure"; "num_positions";
            "max_positions"; "current_drawdown"; "max_drawdown_limit"]
  /\ get d "num_positions"
     = Some (VNum (of_nat (List.length
                             (match file with
                              | Some data => or_default (positions data) []
                              | None => []
                              end))))
  /\ (status_cash file + status_invested file <= 0 ->
      get d "portfolio_exposure" = Some (num 0))
  /\ (equity_curve = [] -> get d "current_drawdown" = Some (num 0)).
Proof.
  rewrite get_risk_status_record. intros H. injection H as <-.
  split; [reflexivity|]. split; [reflexivity|]. split.
  - intros Hle. cbn [get String.eqb Ascii.eqb Bool.eqb].
    destruct (fgt _ (Fin 0)) eqn:E; [|reflexivity].
    apply fgt_Fin in E. lra.
  - intros ->. reflexivity.
Qed.

Lemma get_risk_status_fields_witness :
  exists d,
    DashboardDataLoader.get_risk_status (Some scenario_portfolio) [] [] = Ok d
    /\ get d "num_positions" = Some (VNum (of_nat 1))
    /\ get d "current_drawdown" = Some (num 0).
Proof.
  assert (H : exists d,
             DashboardDataLoader.get_risk_status (Some scenario_portfolio) [] []
             = Ok d) by (eexists; reflexivity).
  destruct H as [d Hd]. exists d. split; [exact Hd|].
  destruct (get_risk_status_fields (Some scenario_portfolio) [] [] d Hd)
    as (_ & Hn & _ & Hc).
  split; [exact Hn | apply Hc; reflexivity].
Defined.


(** X8.  In a record that [get_risk_status] returns, the
    [current_drawdown] is a finite non-negative magnitude, and it is below 1
    when the equity values of the curve are positive. *)
Theorem get_risk_status_current_drawdown
  (file : option PortfolioState) (risk_config : dict)
  (equity_curve : list EquityPoint) (d : dict) :
  DashboardDataLoader.get_risk_status file risk_config equity_curve = Ok d ->
  exists x,
    get d "current_drawdown" = Some (VNum (Fin x))
    /\ 0 <= x
    /\ (Forall (fun p => 0 < equity p) equity_curve -> x < 1).
Proof.
  rewrite get_risk_status_record. intros H. injection H as <-.
  destruct (current_drawdown_nonneg equity_curve) as (x & Hx & H0 & H1).
  exists x. cbn [get String.eqb Ascii.eqb Bool.eqb]. rewrite Hx.
  repeat split; assumption.
Qed.

Lemma get_risk_status_current_drawdown_witness :
  exists d x,
    DashboardDataLoader.get_risk_status None [] (points scenario_equity) = Ok d
    /\ get d "current_drawdown" = Some (VNum (Fin x))
    /\ 0 <= x < 1.
Proof.
  assert (H : exists d,
             DashboardDataLoader.get_risk_status None [] (points scenario_equity)
             = Ok d) by (eexists; reflexivity).
  destruct H as [d Hd].
  destruct (get_risk_status_current_drawdown
              None [] (points scenario_equity) d Hd) as (x & Hx & H0 & H1).
  exists d, x. split; [exact Hd|]. split; [exact Hx|]. split; [exact H0|].
  apply H1. repeat constructor.
Defined.

Lemma or_default_nonneg (o : option Q) (d : Q) :
  opt_nonneg o -> 0 <= d -> 0 <= or_default o d.
Proof.
  destruct o; simpl; auto.
Qed.

Lemma py_sum_nonneg (l : list Q) : Forall (fun q => 0 <= q) l -> 0 <= py_sum l.
Proof.
  intros H. unfold py_sum. rewrite fold_left_Qplus, Qplus_0_l.
  induction H as [|x l Hx _ IH]; simpl; lra.
Qed.

Lemma status_invested_nonneg (data : PortfolioState) :
  Forall (fun kp => position_nonneg (snd kp)) (or_default (positions data) []) ->
  0 <= status_invested (Some data).
Proof.
  intros H. unfold status_invested. apply py_sum_nonneg.
  rewrite map_map. apply Forall_map.
  eapply Forall_impl; [|exact H]. intros [k p] (Hq & Ha & Hc). cbn [snd] in *.
  apply Qmult_le_0_compat.
  - apply or_default_nonneg; [exact Hq | lra].
  - apply or_default_nonneg; [exact Hc|].
    apply or_default_nonneg; [exact Ha | lra].
Qed.

(** X9.  When the cash, the quantities and the prices of the portfolio
    file are not negative, the [portfolio_exposure] that [get_risk_status]
    reports lies between 0 and 1; without a file it is 0. *)
Theorem portfolio_exposure_in_unit_interval
  (file : option PortfolioState) (risk_config : dict)
  (equity_curve : list EquityPoint) :
  match file with
  | Some data =>
      opt_nonneg (cash data)
      /\ Forall (fun kp => position_nonneg (snd kp))
                (or_default (positions data) [])
  | None => True
  end ->
  exists x,
    field (DashboardDataLoader.get_risk_status file risk_config equity_curve)
          "portfolio_exposure" = Some (VNum (Fin x))
    /\ 0 <= x <= 1
    /\ (file = None -> x == 0).
Proof.
  intros H. rewrite get_risk_status_record.
  cbn [field get String.eqb Ascii.eqb Bool.eqb].
  destruct file as [data|].
  - destruct H as [Hc Hp].
    pose proof (status_invested_nonneg data Hp) as Hi.
    assert (Hcash : 0 <= status_cash (Some data)).
    { apply or_default_nonneg; [exact Hc | lra]. }
    set (inv := status_invested (Some data)) in *.
    set (c := status_cash (Some data)) in *.
    destruct (fgt (Fin (c + inv)) (Fin 0)) eqn:E.
    + apply fgt_Fin in E. cbn [fdiv].
      destruct (Qeq_bool (c + inv) 0) eqn:Z; [apply Qeq_bool_iff in Z; lra|].
      eexists. split; [reflexivity|]. split; [|discriminate].
      split; [apply Qle_shift_div_l | apply Qle_shift_div_r]; lra.
    + exists 0. split; [reflexivity|]. split; [lra | reflexivity].
  - eexists. split; [reflexivity|]. split; [|reflexivity].
    split; vm_compute; discriminate.
Qed.

Lemma portfolio_exposure_in_unit_interval_witness :
  exists x,
    field (DashboardDataLoader.get_risk_status (Some scenario_portfolio) [] [])
          "portfolio_exposure" = Some (VNum (Fin x))
    /\ 0 <= x <= 1.
Proof.
  destruct (portfolio_exposure_in_unit_interval (Some scenario_portfolio) [] [])
    as (x & Hx & Hb & _).
  - split; [vm_compute; discriminate|].
    repeat constructor; vm_compute; discriminate.
  - exists x. split; assumption.
Defined.

(** ** Portfolio status and summary *)

Lemma total_return_pct_value (total_equity initial : Q) :
  exists t,
    (if fgt (Fin initial) (Fin 0)
     then r <- py_truediv (Fin total_equity) (Fin initial) ;;
          Ok (fmul (fsub r (Fin 1)) (Fin 100))
     else Ok (Fin 0)) = Ok (Fin t)
    /\ (0 < initial -> t == (total_equity / initial - 1) * 100)
    /\ (initial <= 0 -> t == 0).
Proof.
  destruct (fgt (Fin initial) (Fin 0)) eqn:E.
  - apply fgt_Fin in E. rewrite py_truediv_const by lra.
    cbn [bind fdiv]. destruct (Qeq_bool initial 0) eqn:Z;
      [apply Qeq_bool_iff in Z; lra|].
    cbn [fsub fneg fadd fmul]. eexists. split; [reflexivity|].
    split; intros H; [unfold Qminus; reflexivity | lra].
  - exists 0. split; [reflexivity|]. split; intros H; [|reflexivity].
    apply fgt_Fin in H. congruence.
Qed.

Lemma return_sign (total_equity initial : Q) :
  0 < initial ->
  (0 < (total_equity / initial - 1) * 100 <-> initial < total_equity)
  /\ ((total_equity / initial - 1) * 100 == 0 <-> total_equity == initial).
Proof.
  intros Hi.
  assert (E : total_equity / initial - 1 == (total_equity - initial) / initial)
    by (field; lra).
  split; split; intros H.
  - assert (H1 : 0 < (total_equity - initial) / initial) by (rewrite <- E; lra).
    destruct (Qlt_le_dec initial total_equity) as [G|G]; [exact G|].
    assert (H2 : (total_equity - initial) / initial <= 0)
      by (apply Qle_shift_div_r; lra).
    lra.
  - assert (H1 : 0 < (total_equity - initial) / initial)
      by (apply Qlt_shift_div_l; lra).
    rewrite E. lra.
  - assert (H1 : (total_equity - initial) / initial == 0) by (rewrite <- E; lra).
    assert (H2 : total_equity - initial == 0 * initial).
    { rewrite <- H1. field. lra. }
    lra.
  - rewrite H. field. lra.
Qed.

(** The fields of the portfolio status, on a portfolio file that was parsed
    or without one. *)
Lemma get_portfolio_status_fields (file : option PortfolioState) :
  exists d te c inv t i,
    DashboardDataLoader.get_portfolio_status file = Ok d
    /\ get d "total_equity" = Some (num te)
    /\ get d "cash" = Some (num c)
    /\ get d "invested" = Some (num inv)
    /\ get d "total_return_pct" = Some (VNum (Fin t))
    /\ get d "initial_capital" = Some (num i)
    /\ te == c + inv
    /\ (0 < i -> (0 < t <-> i < te) /\ (t == 0 <-> te == i))
    /\ (i <= 0 -> t == 0).
Proof.
  destruct file as [data|].
  - unfold DashboardDataLoader.get_portfolio_status.
    set (c := or_default (cash data) 100000).
    set (inv := py_sum _).
    set (i := or_default (initial_capital data) 100000).
    destruct (total_return_pct_value (c + inv) i) as (t & Ht & Hpos & Hneg).
    rewrite Ht. cbn [bind].
    eexists _, (c + inv), c, inv, t, i.
    split; [reflexivity|]. repeat (split; [reflexivity|]).
    split; [|exact Hneg]. intros Hi.
    destruct (return_sign (c + inv) i Hi) as [H1 H2].
    rewrite (Hpos Hi). split; assumption.
  - eexists _, 100000, 100000, 0, 0, 100000.
    split; [reflexivity|]. repeat (split; [reflexivity|]).
    split; [|intros H; reflexivity]. intros _.
    split; split; intros H; try reflexivity; vm_compute in H; discriminate H.
Qed.

(** X10.  In a record that [get_portfolio_status] returns, the total
    equity is the cash plus the invested value, and the return has the sign
    of the gain over the initial capital: positive exactly when the equity
    exceeds a positive initial capital, 0 exactly when they are equal, and 0
    when the initial capital is not positive (the guard that stands before
    the division). *)
Theorem get_portfolio_status_invariants
  (file : option PortfolioState) (d : dict) :
  DashboardDataLoader.get_portfolio_status file = Ok d ->
  exists te c inv t i,
    get d "total_equity" = Some (num te)
    /\ get d "cash" = Some (num c)
    /\ get d "invested" = Some (num inv)
    /\ get d "total_return_pct" = Some (VNum (Fin t))
    /\ get d "initial_capital" = Some (num i)
    /\ te == c + inv
    /\ (0 < i -> (0 < t <-> i < te) /\ (t == 0 <-> te == i))
    /\ (i <= 0 -> t == 0).
Proof.
  intros Hd.
  destruct (get_portfolio_status_fields file) as (d' & te & c & inv & t & i & Hd' & H).
  rewrite Hd in Hd'. injection Hd' as <-.
  exists te, c, inv, t, i. exact H.
Qed.

Lemma get_portfolio_status_invariants_witness :
  exists d te,
    DashboardDataLoader.get_portfolio_status (Some scenario_portfolio) = Ok d
    /\ get d "total_equity" = Some (num te)
    /\ te == 100000.
Proof.
  assert (H : exists d,
             DashboardDataLoader.get_portfolio_status (Some scenario_portfolio)
             = Ok d) by (eexists; reflexivity).
  destruct H as [d Hd].
  destruct (get_portfolio_status_invariants (Some scenario_portfolio) d Hd)
    as (te & c & inv & t & i & Hte & Hc & Hinv & _ & _ & Hsum & _).
  exists d, te. split; [exact Hd|]. split; [exact Hte|].
  pose proof Hd as Hv. vm_compute in Hv. injection Hv as <-.
  vm_compute in Hc, Hinv. injection Hc as <-. injection Hinv as <-.
  rewrite Hsum. reflexivity.
Defined.

(** The fields of the portfolio summary, on a portfolio file that was
    parsed. *)
Lemma get_portfolio_summary_fields (state : PortfolioState) :
  exists d te c pv t i,
    DashboardMetrics.get_portfolio_summary (Some state) = Ok d
    /\ get d "total_equity" = Some (num te)
    /\ get d "cash" = Some (num c)
    /\ get d "positions_value" = Some (num pv)
    /\ get d "total_return_pct" = Some (VNum (Fin t))
    /\ get d "initial_capital" = Some (num i)
    /\ te == c + pv
    /\ (0 < i -> (0 < t <-> i < te) /\ (t == 0 <-> te == i))
    /\ (i <= 0 -> t == 0).
Proof.
  unfold DashboardMetrics.get_portfolio_summary.
  set (i := or_default (initial_capital state) 100000).
  set (c := or_default (cash state) i).
  set (pv := py_sum _).
  destruct (total_return_pct_value (c + pv) i) as (t & Ht & Hpos & Hneg).
  rewrite Ht. cbn [bind].
  eexists _, (c + pv), c, pv, t, i.
  split; [reflexivity|]. repeat (split; [reflexivity|]).
  split; [|exact Hneg]. intros Hi.
  destruct (return_sign (c + pv) i Hi) as [H1 H2].
  rewrite (Hpos Hi). split; assumption.
Qed.

(** X11.  In a record that [get_portfolio_summary] returns for a portfolio
    file, the total equity is the cash plus the value of the positions, and
    the return has the sign of the gain over the initial capital, 0 when
    the initial capital is not positive. *)
Theorem get_portfolio_summary_invariants (state : PortfolioState) (d : dict) :
  DashboardMetrics.get_portfolio_summary (Some state) = Ok d ->
  exists te c pv t i,
    get d "total_equity" = Some (num te)
    /\ get d "cash" = Some (num c)
    /\ get d "positions_value" = Some (num pv)
    /\ get d "total_return_pct" = Some (VNum (Fin t))
    /\ get d "initial_capital" = Some (num i)
    /\ te == c + pv
    /\ (0 < i -> (0 < t <-> i < te) /\ (t == 0 <-> te == i))
    /\ (i <= 0 -> t == 0).
Proof.
  intros Hd.
  destruct (get_portfolio_summary_fields state) as (d' & te & c & pv & t & i & Hd' & H).
  rewrite Hd in Hd'. injection Hd' as <-.
  exists te, c, pv, t, i. exact H.
Qed.

Lemma get_portfolio_summary_invariants_witness :
  exists d t,
    DashboardMetrics.get_portfolio_summary (Some unpriced_portfolio) = Ok d
    /\ get d "total_return_pct" = Some (VNum (Fin t))
    /\ ~ 0 < t.
Proof.
  assert (H : exists d,
             DashboardMetrics.get_portfolio_summary (Some unpriced_portfolio)
             = Ok d) by (eexists; reflexivity).
  destruct H as [d Hd].
  destruct (get_portfolio_summary_invariants unpriced_portfolio d Hd)
    as (te & c & pv & t & i & Hte & _ & _ & Ht & Hi & _ & Hpos & _).
  exists d, t. split; [exact Hd|]. split; [exact Ht|].
  pose proof Hd as Hv. vm_compute in Hv. injection Hv as <-.
  vm_compute in Hte, Hi. injection Hte as <-. injection Hi as <-.
  destruct Hpos as [Hs _]; [reflexivity|].
  intros L. apply Hs in L. vm_compute in L. discriminate L.
Defined.

(** X12.  On a portfolio file that has its cash and whose positions all
    carry a current price, [get_portfolio_status] and
    [get_portfolio_summary] report the same total equity, cash, return,
    initial capital and positions, and the invested value of the one is the
    positions value of the other. *)
Theorem portfolio_status_and_summary_agree (state : PortfolioState) :
  cash state <> None ->
  Forall (fun kp => current_price (snd kp) <> None)
         (or_default (positions state) []) ->
  let status := DashboardDataLoader.get_portfolio_status (Some state) in
  let summary := DashboardMetrics.get_portfolio_summary (Some state) in
  Forall (fun k => field status k = field summary k /\ field status k <> None)
         ["total_equity"; "cash"; "total_return_pct"; "initial_capital";
          "positions"]
  /\ field status "invested" = field summary "positions_value".
Proof.
  intros Hcash Hpos status summary.
  destruct (cash state) as [c|] eqn:Ec; [|congruence].
  set (i := or_default (initial_capital state) 100000).
  set (pv := py_sum (map (fun p =>
                            or_default (quantity p) 0
                            * or_default (current_price p) 0)
                         (map snd (or_default (positions state) [])))).
  assert (E : py_sum
                (map (fun p =>
                        or_default (quantity p) 0
                        * or_default (current_price p)
                                     (or_default (avg_price p) 0))
                     (map snd (or_default (positions state) [])))
              = pv).
  { unfold pv. f_equal. apply map_ext_in. intros p Hp. apply in_map_iff in Hp.
    destruct Hp as (kp & <- & Hin). rewrite Forall_forall in Hpos.
    specialize (Hpos kp Hin). destruct (current_price (snd kp)); [reflexivity|].
    congruence. }
  destruct (total_return_pct_value (c + pv) i) as (t & Ht & _).
  assert (Hs : status
               = Ok [("total_equity", num (c + pv)); ("cash", num c);
                     ("invested", num pv);
                     ("positions", VPositions (or_default (positions state) []));
                     ("total_return_pct", VNum (Fin t));
                     ("initial_capital", num i)]).
  { unfold status, DashboardDataLoader.get_portfolio_status.
    rewrite Ec, E. cbn [or_default]. fold i. rewrite Ht. reflexivity. }
  assert (Hm : summary
               = Ok [("total_equity", num (c + pv)); ("cash", num c);
                     ("positions_value", num pv);
                     ("total_return_pct", VNum (Fin t));
                     ("initial_capital", num i);
                     ("positions", VPositions (or_default (positions state) []))]).
  { unfold summary, DashboardMetrics.get_portfolio_summary.
    rewrite Ec. fold i. cbn [or_default]. fold pv. rewrite Ht. reflexivity. }
  rewrite Hs, Hm. split; [|reflexivity].
  repeat constructor; discriminate.
Qed.

Lemma portfolio_status_and_summary_agree_witness :
  field (DashboardDataLoader.get_portfolio_status (Some scenario_portfolio))
        "total_equity"
  = field (DashboardMetrics.get_portfolio_summary (Some scenario_portfolio))
          "total_equity".
Proof.
  destruct (portfolio_status_and_summary_agree scenario_portfolio) as [H _].
  - discriminate.
  - repeat constructor. discriminate.
  - inversion H as [|? ? [H1 _] _]. exact H1.
Defined.

(** ** [get_trade_statistics] *)

(** The record of [get_trade_statistics] when some trade is a SELL. *)
Lemma get_trade_statistics_closed (trades : list Trade) (p : Q) (ps : list Q) :
  closed_pnls trades = p :: ps ->
  DashboardMetrics.get_trade_statistics (Some trades)
  = Ok [("total_trades", VNum (of_nat (List.length trades)));
        ("closed_trades", VNum (of_nat (List.length (p :: ps))));
        ("winning_trades", VNum (of_nat (count_pos (p :: ps))));
        ("losing_trades", VNum (of_nat (count_neg (p :: ps))));
        ("win_rate",
         VNum (Fin (inject_Z (Z.of_nat (count_pos (p :: ps)))
                    / inject_Z (Z.of_nat (List.length (p :: ps))) * 100)));
        ("total_pnl", num (py_sum (p :: ps)));
        ("avg_pnl",
         VNum (Fin (py_sum (p :: ps)
                    / inject_Z (Z.of_nat (List.length (p :: ps))))));
        ("best_trade", num (py_max_of p ps));
        ("worst_trade", num (py_min_of p ps))].
Proof.
  unfold closed_pnls. intros H.
  destruct trades as [|t l]; [discriminate H|].
  unfold DashboardMetrics.get_trade_statistics.
  destruct (filter DashboardMetrics.is_sell (t :: l)) as [|c cs] eqn:E;
    [discriminate H|].
  rewrite H. cbn [is_nil negb].
  assert (Hlen : List.length (c :: cs) = List.length (p :: ps)).
  { rewrite <- H. rewrite length_map. reflexivity. }
  rewrite Hlen. cbn [List.length].
  rewrite py_truediv_of_nat. unfold of_nat at 3. rewrite !fdiv_of_nat.
  reflexivity.
Qed.

Lemma get_trade_statistics_no_closed (trades : list Trade) :
  closed_pnls trades = [] ->
  DashboardMetrics.get_trade_statistics (Some trades)
  = Ok (DashboardMetrics.no_trade_statistics (List.length trades)).
Proof.
  unfold closed_pnls. intros H.
  destruct trades as [|t l]; [reflexivity|].
  unfold DashboardMetrics.get_trade_statistics.
  destruct (filter DashboardMetrics.is_sell (t :: l)) as [|c cs];
    [reflexivity | discriminate H].
Qed.

Lemma count_pos_neg_le (l : list Q) :
  (count_pos l + count_neg l <= List.length l)%nat.
Proof.
  unfold count_pos, count_neg.
  induction l as [|x l IH]; simpl; [lia|].
  destruct (fgt (Fin x) (Fin 0)) eqn:G, (flt (Fin x) (Fin 0)) eqn:L;
    simpl; try lia.
  apply fgt_Fin in G. apply flt_Fin in L. lra.
Qed.

(** X13.  When some trade is a SELL, the counts that
    [get_trade_statistics] reports are ordered: winning plus losing trades
    are at most the closed trades, which are at most all trades. *)
Theorem trade_statistics_counts (trades : list Trade) :
  filter DashboardMetrics.is_sell trades <> [] ->
  exists d total closed winning losing,
    DashboardMetrics.get_trade_statistics (Some trades) = Ok d
    /\ get d "total_trades" = Some (VNum (of_nat total))
    /\ get d "closed_trades" = Some (VNum (of_nat closed))
    /\ get d "winning_trades" = Some (VNum (of_nat winning))
    /\ get d "losing_trades" = Some (VNum (of_nat losing))
    /\ total = List.length trades
    /\ closed = List.length (filter DashboardMetrics.is_sell trades)
    /\ (winning + losing <= closed <= total)%nat.
Proof.
  intros Hne.
  destruct (closed_pnls trades) as [|p ps] eqn:E.
  { unfold closed_pnls in E. apply map_eq_nil in E. congruence. }
  rewrite (get_trade_statistics_closed trades p ps E).
  assert (Hlen : List.length (p :: ps)
                 = List.length (filter DashboardMetrics.is_sell trades)).
  { rewrite <- E. unfold closed_pnls. apply length_map. }
  eexists _, _, _, _, _. split; [reflexivity|].
  repeat (split; [reflexivity|]). split; [exact Hlen|].
  split; [apply count_pos_neg_le|].
  rewrite Hlen. apply filter_length_le.
Qed.

Lemma trade_statistics_counts_witness :
  exists d,
    DashboardMetrics.get_trade_statistics
      (Some DashboardDataLoader.get_demo_trade_history) = Ok d
    /\ get d "closed_trades" = Some (VNum (of_nat 3)).
Proof.
  destruct (trade_statistics_counts DashboardDataLoader.get_demo_trade_history)
    as (d & total & closed & winning & losing & Hd & _ & Hc & _ & _ & _ & Hn & _).
  - discriminate.
  - exists d. split; [exact Hd|]. rewrite Hc, Hn. reflexivity.
Defined.

(** X14.  In a record that [get_trade_statistics] returns, the win rate
    is a percentage between 0 and 100. *)
Theorem trade_statistics_win_rate_percentage
  (trades_file : option (list Trade)) (d : dict) :
  DashboardMetrics.get_trade_statistics trades_file = Ok d ->
  exists r, get d "win_rate" = Some (VNum (Fin r)) /\ 0 <= r <= 100.
Proof.
  intros Hd.
  destruct (get_trade_statistics_win_rate trades_file) as (d' & w & Hd' & Hw & Hs).
  rewrite Hd in Hd'. injection Hd' as <-.
  exists w. split; [exact Hw|].
  pose proof (spec_win_rate_bounds (or_default trades_file [])) as Hb.
  rewrite Hs. lra.
Qed.

Lemma trade_statistics_win_rate_percentage_witness :
  exists d r,
    DashboardMetrics.get_trade_statistics
      (Some DashboardDataLoader.get_demo_trade_history) = Ok d
    /\ get d "win_rate" = Some (VNum (Fin r))
    /\ 0 <= r <= 100.
Proof.
  assert (H : exists d,
             DashboardMetrics.get_trade_statistics
               (Some DashboardDataLoader.get_demo_trade_history) = Ok d)
    by (eexists; reflexivity).
  destruct H as [d Hd].
  destruct (trade_statistics_win_rate_percentage _ d Hd) as (r & Hr & Hb).
  exists d, r. repeat split; try assumption; apply Hb.
Defined.

Lemma py_max_of_upper (l : list Q) (x : Q) :
  x <= py_max_of x l /\ Forall (fun q => q <= py_max_of x l) l
  /\ In (py_max_of x l) (x :: l).
Proof.
  unfold py_max_of. revert x. induction l as [|y l IH]; intros x.
  - cbn [fold_left]. repeat split; [lra | constructor | left; reflexivity].
  - cbn [fold_left]. destruct (Qle_bool y x) eqn:E.
    + apply Qle_bool_iff in E. destruct (IH x) as (Hx & Hall & Hin).
      repeat split; [exact Hx | constructor; [lra | exact Hall] |].
      destruct Hin as [H | H]; [left; exact H | right; right; exact H].
    + assert (L : x <= y).
      { destruct (Qlt_le_dec y x) as [G|G]; [|exact G].
        assert (Hle : y <= x) by lra. apply Qle_bool_iff in Hle. congruence. }
      destruct (IH y) as (Hy & Hall & Hin).
      repeat split; [lra | constructor; assumption | right; exact Hin].
Qed.

Lemma py_min_of_lower (l : list Q) (x : Q) :
  py_min_of x l <= x /\ Forall (fun q => py_min_of x l <= q) l
  /\ In (py_min_of x l) (x :: l).
Proof.
  unfold py_min_of. revert x. induction l as [|y l IH]; intros x.
  - cbn [fold_left]. repeat split; [lra | constructor | left; reflexivity].
  - cbn [fold_left]. destruct (Qle_bool x y) eqn:E.
    + apply Qle_bool_iff in E. destruct (IH x) as (Hx & Hall & Hin).
      repeat split; [exact Hx | constructor; [lra | exact Hall] |].
      destruct Hin as [H | H]; [left; exact H | right; right; exact H].
    + assert (L : y <= x).
      { destruct (Qlt_le_dec x y) as [G|G]; [|exact G].
        assert (Hle : x <= y) by lra. apply Qle_bool_iff in Hle. congruence. }
      destruct (IH y) as (Hy & Hall & Hin).
      repeat split; [lra | constructor; assumption | right; exact Hin].
Qed.

(** X15.  When some trade is a SELL, the best and the worst trade in a
    record that [get_trade_statistics] returns are P&Ls of closed trades,
    and every closed P&L lies between them: a trade that is not a SELL
    bears on neither. *)
Theorem trade_statistics_best_and_worst (trades : list Trade) (d : dict) :
  filter DashboardMetrics.is_sell trades <> [] ->
  DashboardMetrics.get_trade_statistics (Some trades) = Ok d ->
  exists best worst,
    get d "best_trade" = Some (num best)
    /\ get d "worst_trade" = Some (num worst)
    /\ In best (closed_pnls trades) /\ In worst (closed_pnls trades)
    /\ Forall (fun q => worst <= q <= best) (closed_pnls trades).
Proof.
  intros Hne Hd.
  destruct (closed_pnls trades) as [|p ps] eqn:E.
  { unfold closed_pnls in E. apply map_eq_nil in E. congruence. }
  rewrite (get_trade_statistics_closed trades p ps E) in Hd.
  injection Hd as <-.
  destruct (py_max_of_upper ps p) as (Hbx & Hball & Hbin).
  destruct (py_min_of_lower ps p) as (Hwx & Hwall & Hwin).
  exists (py_max_of p ps), (py_min_of p ps).
  split; [reflexivity|]. split; [reflexivity|].
  split; [exact Hbin|]. split; [exact Hwin|].
  constructor; [lra|]. rewrite Forall_forall in *. intros q Hq.
  specialize (Hball q Hq). specialize (Hwall q Hq). lra.
Qed.

Lemma trade_statistics_best_and_worst_witness :
  exists d best worst,
    DashboardMetrics.get_trade_statistics
      (Some DashboardDataLoader.get_demo_trade_history) = Ok d
    /\ get d "best_trade" = Some (num best)
    /\ get d "worst_trade" = Some (num worst)
    /\ In best (closed_pnls DashboardDataLoader.get_demo_trade_history)
    /\ In worst (closed_pnls DashboardDataLoader.get_demo_trade_history).
Proof.
  assert (H : exists d,
             DashboardMetrics.get_trade_statistics
               (Some DashboardDataLoader.get_demo_trade_history) = Ok d)
    by (eexists; reflexivity).
  destruct H as [d Hd].
  destruct (trade_statistics_best_and_worst
              DashboardDataLoader.get_demo_trade_history d)
    as (best & worst & Hb & Hw & Hbin & Hwin & _);
    [discriminate | exact Hd |].
  exists d, best, worst. repeat split; assumption.
Defined.

(** X16.  Trades that are not SELL count in [total_trades] only: every
    other field of [get_trade_statistics] is the one the SELL trades alone
    give. *)
Theorem trade_statistics_ignore_open_trades (trades : list Trade) (k : string) :
  k <> "total_trades" ->
  field (DashboardMetrics.get_trade_statistics (Some trades)) k
  = field (DashboardMetrics.get_trade_statistics
             (Some (filter DashboardMetrics.is_sell trades))) k.
Proof.
  intros Hk.
  assert (Hf : closed_pnls (filter DashboardMetrics.is_sell trades)
               = closed_pnls trades).
  { unfold closed_pnls. f_equal.
    induction trades as [|t l IH]; [reflexivity|]. simpl.
    destruct (DashboardMetrics.is_sell t) eqn:E; simpl; rewrite ?E, IH;
      reflexivity. }
  apply String.eqb_neq in Hk.
  destruct (closed_pnls trades) as [|p ps] eqn:E.
  - rewrite (get_trade_statistics_no_closed trades E).
    rewrite (get_trade_statistics_no_closed _ Hf).
    unfold DashboardMetrics.no_trade_statistics.
    cbn [field get]. rewrite Hk. reflexivity.
  - rewrite (get_trade_statistics_closed trades p ps E).
    rewrite (get_trade_statistics_closed _ p ps Hf).
    cbn [field get]. rewrite Hk. reflexivity.
Qed.

Lemma trade_statistics_ignore_open_trades_witness :
  field (DashboardMetrics.get_trade_statistics
           (Some DashboardDataLoader.get_demo_trade_history)) "win_rate"
  = field (DashboardMetrics.get_trade_statistics
             (Some (filter DashboardMetrics.is_sell
                           DashboardDataLoader.get_demo_trade_history)))
          "win_rate".
Proof.
  apply trade_statistics_ignore_open_trades. discriminate.
Defined.

(** ** Daily returns *)

Lemma pct_change_from_positive (l : list Q) (prev : Q) :
  0 < prev -> Forall (fun x => 0 < x) l ->
  Series.pct_change_from (Fin prev) (Series.of_list l)
  = Series.of_list (returns_after prev l).
Proof.
  intros Hp H. revert prev Hp. induction H as [|x l Hx _ IH]; intros prev Hp.
  - reflexivity.
  - cbn [Series.of_list map Series.pct_change_from returns_after fdiv].
    destruct (Qeq_bool prev 0) eqn:Z; [apply Qeq_bool_iff in Z; lra|].
    cbn [fsub fneg fadd]. f_equal. apply IH. exact Hx.
Qed.

(** The returns of a positive equity series: one per day after the first,
    all finite. *)
Lemma returns_of_positive (x : Q) (l : list Q) :
  Forall (fun y => 0 < y) (x :: l) ->
  Series.dropna (Series.pct_change (Series.of_list (x :: l)))
  = Series.of_list (returns_after x l).
Proof.
  intros H. inversion H as [|? ? Hx Hl]; subst.
  cbn [Series.of_list map Series.pct_change].
  change (map Fin l) with (Series.of_list l).
  rewrite (pct_change_from_positive l x Hx Hl).
  unfold Series.dropna at 1. cbn [filter is_nan negb].
  apply dropna_of_list.
Qed.

Lemma returns_after_length (l : list Q) (prev : Q) :
  List.length (returns_after prev l) = List.length l.
Proof.
  revert prev. induction l as [|x l IH]; intros prev; simpl; auto.
Qed.

Lemma returns_after_bound (l : list Q) (prev : Q) :
  0 < prev -> Forall (fun x => 0 < x) l ->
  Forall (fun r => - (1) < r) (returns_after prev l).
Proof.
  intros Hp H. revert prev Hp. induction H as [|x l Hx _ IH]; intros prev Hp.
  - constructor.
  - cbn [returns_after]. constructor; [|apply IH; exact Hx].
    assert (H0 : 0 < x / prev) by (apply Qlt_shift_div_l; lra).
    lra.
Qed.

Lemma tail_length (n : nat) (s : Series.Series) :
  List.length (Series.tail n s) = Nat.min n (List.length s).
Proof.
  unfold Series.tail. rewrite length_skipn. lia.
Qed.

Lemma tail_suffix (n : nat) (s : Series.Series) :
  exists prefix, s = (prefix ++ Series.tail n s)%list.
Proof.
  unfold Series.tail. exists (firstn (List.length s - n) s).
  symmetry. apply firstn_skipn.
Qed.

(** X17.  With a positive [days], [get_daily_returns] returns at most
    [days] returns, and they are the most recent ones: a suffix of the series
    it returns without limit ([days = 0]). *)
Theorem get_daily_returns_window
  (daily_logs : option (list EquityPoint)) (days : nat) :
  (days <> 0)%nat ->
  (List.length (DashboardMetrics.get_daily_returns daily_logs days) <= days)%nat
  /\ exists older,
       DashboardMetrics.get_daily_returns daily_logs 0
       = (older ++ DashboardMetrics.get_daily_returns daily_logs days)%list.
Proof.
  intros Hd. unfold DashboardMetrics.get_daily_returns.
  destruct daily_logs as [[|p ps]|];
    try (split; [simpl; lia | exists []; reflexivity]).
  set (returns := Series.dropna _).
  cbn [Nat.eqb negb andb].
  destruct (Nat.eqb days 0) eqn:E0; [apply Nat.eqb_eq in E0; congruence|].
  cbn [negb andb].
  destruct (Nat.ltb days (List.length returns)) eqn:E.
  - split; [rewrite tail_length; lia | apply tail_suffix].
  - apply Nat.ltb_ge in E. split; [exact E | exists []; reflexivity].
Qed.

Lemma get_daily_returns_window_witness :
  (List.length
     (DashboardMetrics.get_daily_returns (Some (points scenario_equity)) 2)
   <= 2)%nat.
Proof.
  apply get_daily_returns_window. discriminate.
Defined.

(** X18.  From daily logs with positive equity values, [get_daily_returns]
    without limit gives one return per day after the first, each finite and
    above -1. *)
Theorem get_daily_returns_positive (equity_data : list EquityPoint) :
  Forall (fun p => 0 < equity p) equity_data ->
  exists rs,
    DashboardMetrics.get_daily_returns (Some equity_data) 0 = Series.of_list rs
    /\ List.length rs = pred (List.length equity_data)
    /\ Forall (fun r => - (1) < r) rs.
Proof.
  intros H. destruct equity_data as [|p ps].
  - exists []. repeat split. constructor.
  - unfold DashboardMetrics.get_daily_returns. cbn [Nat.eqb negb andb map].
    assert (Hl : Forall (fun y => 0 < y) (equity p :: map equity ps)).
    { change (equity p :: map equity ps) with (map equity (p :: ps)).
      apply Forall_map. exact H. }
    rewrite (returns_of_positive _ _ Hl).
    exists (returns_after (equity p) (map equity ps)).
    split; [reflexivity|]. split.
    + rewrite returns_after_length, length_map. reflexivity.
    + inversion Hl; subst. apply returns_after_bound; assumption.
Qed.

Lemma get_daily_returns_positive_witness :
  exists rs,
    DashboardMetrics.get_daily_returns (Some (points scenario_equity)) 0
    = Series.of_list rs
    /\ List.length rs = 3%nat.
Proof.
  destruct (get_daily_returns_positive (points scenario_equity))
    as (rs & Hrs & Hlen & _).
  - repeat constructor.
  - exists rs. split; [exact Hrs | exact Hlen].
Defined.

(** ** Win rate *)

Lemma pnl_positive_is_win (t : Trade) :
  DashboardDataLoader.pnl_positive t = Spec.is_win t.
Proof.
  rewrite <- fgt_pnl_is_win. unfold DashboardDataLoader.pnl_positive.
  destruct (pnl t); reflexivity.
Qed.

Lemma filter_all {A : Type} (f : A -> bool) (l : list A) :
  forallb f l = true -> filter f l = l.
Proof.
  induction l as [|a l IH]; simpl; [reflexivity|].
  intros H. apply andb_true_iff in H. destruct H as [Ha Hl].
  rewrite Ha, IH by exact Hl. reflexivity.
Qed.

Lemma filter_none {A : Type} (f g : A -> bool) (l : list A) :
  forallb g l = true -> (forall a, g a = true -> f a = false) ->
  filter f l = [].
Proof.
  intros H Hfg. induction l as [|a l IH]; simpl in *; [reflexivity|].
  apply andb_true_iff in H. destruct H as [Ha Hl].
  rewrite (Hfg a Ha). apply IH. exact Hl.
Qed.

(** X20.  On a trade frame that holds SELL trades only,
    [_calculate_win_rate] is the win rate of the closed trades: the wins
    over the number of SELL trades. *)
Theorem loader_win_rate_on_closed_trades (trades : list Trade) :
  forallb DashboardMetrics.is_sell trades = true ->
  exists w,
    DashboardDataLoader._calculate_win_rate trades = Ok (Fin w)
    /\ w == Spec.win_rate trades.
Proof.
  intros H. unfold DashboardDataLoader._calculate_win_rate, Spec.win_rate,
    Spec.wins, Spec.closed_trades.
  rewrite (filter_all _ _ H).
  destruct trades as [|t l]; [exists 0; split; reflexivity|].
  cbn [is_nil orb].
  destruct (forallb (fun t0 => match pnl t0 with
                               | None => true
                               | Some _ => false
                               end) (t :: l)) eqn:E.
  - exists 0. split; [reflexivity|].
    rewrite (filter_none Spec.is_win _ (t :: l) E).
    + cbn [List.length]. change (inject_Z (Z.of_nat 0)) with 0.
      unfold Qdiv. ring.
    + intros a Ha. unfold Spec.is_win. destruct (pnl a); [discriminate|].
      reflexivity.
  - cbn [List.length]. rewrite py_truediv_of_nat.
    unfold of_nat at 1. rewrite fdiv_of_nat.
    eexists. split; [reflexivity|].
    rewrite (filter_ext _ _ pnl_positive_is_win). reflexivity.
Qed.

Lemma loader_win_rate_on_closed_trades_witness :
  exists w,
    DashboardDataLoader._calculate_win_rate
      (filter DashboardMetrics.is_sell DashboardDataLoader.get_demo_trade_history)
    = Ok (Fin w)
    /\ w == 2 # 3.
Proof.
  destruct (loader_win_rate_on_closed_trades
              (filter DashboardMetrics.is_sell
                      DashboardDataLoader.get_demo_trade_history))
    as (w & Hw & Hs).
  - reflexivity.
  - exists w. split; [exact Hw|]. rewrite Hs. reflexivity.
Defined.

(** X21.  In a record that [DashboardMetrics.get_performance_metrics]
    returns, the win rate is a fraction between 0 and 1 (the percentage of
    [get_trade_statistics] over 100), and it is 0 when there are no
    returns. *)
Theorem metrics_performance_win_rate
  (libm : Libm) (daily_logs : option (list EquityPoint))
  (trades_file : option (list Trade)) (days : nat) (d : dict) :
  DashboardMetrics.get_performance_metrics daily_logs trades_file days = Ok d ->
  exists w,
    get d "win_rate" = Some (VNum (Fin w))
    /\ 0 <= w <= 1
    /\ (DashboardMetrics.get_daily_returns daily_logs days = [] -> w == 0).
Proof.
  unfold DashboardMetrics.get_performance_metrics.
  destruct (DashboardMetrics.get_daily_returns daily_logs days) as [|x returns].
  - intros H. injection H as <-. exists 0. split; [reflexivity|].
    split; [lra | reflexivity].
  - destruct (performance_metrics_of_cons x returns trades_file)
      as (a & w & _ & Hw & H).
    rewrite H. intros Hd. injection Hd as <-.
    exists w. split; [reflexivity|].
    pose proof (spec_win_rate_bounds (or_default trades_file [])) as Hb.
    split; [rewrite Hw; exact Hb | discriminate].
Qed.

Lemma metrics_performance_win_rate_witness :
  exists d w,
    DashboardMetrics.get_performance_metrics
      (libm := Reference.libm) (Some (points scenario_equity))
      (Some DashboardDataLoader.get_demo_trade_history) 30 = Ok d
    /\ get d "win_rate" = Some (VNum (Fin w))
    /\ 0 <= w <= 1.
Proof.
  assert (H : exists d,
             DashboardMetrics.get_performance_metrics
               (libm := Reference.libm) (Some (points scenario_equity))
               (Some DashboardDataLoader.get_demo_trade_history) 30 = Ok d)
    by (eexists; reflexivity).
  destruct H as [d Hd].
  destruct (metrics_performance_win_rate Reference.libm _ _ _ d Hd)
    as (w & Hw & Hb & _).
  exists d, w. repeat split; try assumption; apply Hb.
Defined.

(** ** Young accounts *)

Lemma std_short {libm : Libm} (s : Series.Series) :
  (Series.count s <= 1)%nat -> Series.std s = NaN.
Proof.
  unfold Series.std. destruct (Series.count s) as [|[|n]]; [reflexivity.. | lia].
Qed.

Lemma dropna_length_le (s : Series.Series) :
  (List.length (Series.dropna s) <= List.length s)%nat.
Proof.
  apply filter_length_le.
Qed.

Lemma pct_change_from_length (s : Series.Series) (prev : pyfloat) :
  List.length (Series.pct_change_from prev s) = List.length s.
Proof.
  revert prev. induction s as [|x s IH]; intros prev; simpl; auto.
Qed.

Lemma returns_count_le (x : pyfloat) (s : Series.Series) :
  (Series.count (Series.dropna (Series.pct_change (x :: s))) <= List.length s)%nat.
Proof.
  unfold Series.count. cbn [Series.pct_change].
  unfold Series.dropna at 2. cbn [filter is_nan negb].
  fold (Series.dropna (Series.pct_change_from x s)).
  etransitivity; [apply dropna_length_le|].
  etransitivity; [apply dropna_length_le|].
  rewrite pct_change_from_length. lia.
Qed.

(** X22.  With fewer than two returns the volatility is NaN, not 0: in the
    record of [DashboardDataLoader.get_performance_metrics] for an equity
    curve of one or two points, and in the record of
    [DashboardMetrics.get_performance_metrics] for a single return. *)
Theorem volatility_of_short_history
  (libm : Libm) (equity_curve : list EquityPoint) (trades : list Trade)
  (r : pyfloat) (trades_file : option (list Trade)) :
  (equity_curve <> [] -> (List.length equity_curve <= 2)%nat ->
   field (DashboardDataLoader.get_performance_metrics equity_curve trades)
         "volatility" = Some (VNum NaN))
  /\ field (DashboardMetrics.performance_metrics_of [r] trades_file)
           "volatility" = Some (VNum NaN).
Proof.
  split.
  - intros Hne Hlen. destruct equity_curve as [|p ps]; [congruence|].
    destruct (loader_record_cons p ps trades) as (t & a & w & _ & _ & H).
    rewrite H. cbn [field get String.eqb Ascii.eqb Bool.eqb].
    rewrite std_short; [reflexivity|].
    cbn [map Series.of_list].
    etransitivity; [apply returns_count_le|].
    rewrite !length_map. cbn [List.length] in Hlen. lia.
  - destruct (performance_metrics_of_cons r [] trades_file)
      as (a & w & _ & _ & H).
    rewrite H. cbn [field get String.eqb Ascii.eqb Bool.eqb].
    unfold DashboardMetrics.volatility. rewrite std_singleton. reflexivity.
Qed.

Lemma volatility_of_short_history_witness :
  field (DashboardDataLoader.get_performance_metrics
           (libm := Reference.libm) (points [100000; 105000]) [])
        "volatility" = Some (VNum NaN).
Proof.
  destruct (volatility_of_short_history
              Reference.libm (points [100000; 105000]) [] (Fin 0) None)
    as [H _].
  apply H; [discriminate | simpl; lia].
Defined.

(** X23.  With exactly one negative return, [_calculate_sortino] returns
    NaN (the standard deviation of a single downside return is NaN), while
    [DashboardMetrics.get_performance_metrics] reports 0. *)
Theorem sortino_of_single_downside
  (libm : Libm) (returns : Series.Series) (trades_file : option (list Trade)) :
  List.length (Series.negative returns) = 1%nat ->
  DashboardDataLoader._calculate_sortino returns = NaN
  /\ field (DashboardMetrics.performance_metrics_of returns trades_file)
           "sortino_ratio" = Some (num 0).
Proof.
  intros H.
  destruct (Series.negative returns) as [|n [|n' ns]] eqn:E; try discriminate H.
  assert (Hn : List.length (Series.dropna [n]) = 1%nat).
  { assert (Hin : In n (Series.negative returns)) by (rewrite E; left; reflexivity).
    apply filter_In in Hin. destruct Hin as [_ Hlt].
    destruct n; try discriminate Hlt; reflexivity. }
  assert (Hstd : Series.std [n] = NaN).
  { apply std_short. unfold Series.count. rewrite Hn. lia. }
  destruct returns as [|x rs]; [discriminate E|].
  split.
  - unfold DashboardDataLoader._calculate_sortino.
    cbn [Series.empty]. rewrite E. cbn [Series.empty orb]. rewrite Hstd.
    cbn [feqb fcmp].
    destruct (Series.mean (x :: rs)); reflexivity.
  - rewrite sortino_field_cons. unfold DashboardMetrics.sortino.
    rewrite E. cbn [List.length Nat.ltb Nat.leb]. rewrite Hstd. reflexivity.
Qed.

Lemma sortino_of_single_downside_witness :
  DashboardDataLoader._calculate_sortino
    (libm := Reference.libm) (Series.of_list [1 # 20; - (1 # 10); 1 # 50]) = NaN.
Proof.
  destruct (sortino_of_single_downside
              Reference.libm (Series.of_list [1 # 20; - (1 # 10); 1 # 50]) None)
    as [H _].
  - reflexivity.
  - exact H.
Defined.

(** ** [get_equity_curve] *)

Section EquityCurve.

Variable sort_values : list EquityPoint -> list EquityPoint.
Hypothesis sort_values_permutes :
  forall l, Permutation (sort_values l) l.



(** X25.  A log file that cannot be read or parsed is skipped: the curve
    is the one the readable files alone give. *)
Theorem get_equity_curve_skips_unreadable
  (files : list (option DailyLog)) (now : Q) (days : option nat) :
  DashboardDataLoader.get_equity_curve sort_values (Some files) now days
  = DashboardDataLoader.get_equity_curve
      sort_values (Some (filter readable files)) now days.
Proof.
  unfold DashboardDataLoader.get_equity_curve.
  assert (E : flat_map DashboardDataLoader.equity_row (filter readable files)
              = flat_map DashboardDataLoader.equity_row files).
  { induction files as [|[data|] files IH]; simpl; [reflexivity | |exact IH].
    rewrite IH. reflexivity. }
  rewrite E. reflexivity.
Qed.

End EquityCurve.


(** ** Current drawdown and drawdown series *)

Lemma fold_fmax2_of_list (l : list Q) (a : Q) :
  fold_left Series.fmax2 (Series.of_list l) (Fin a)
  = Fin (fold_left qmax2 l a).
Proof.
  revert a. induction l as [|x l IH]; intros a; [reflexivity|].
  cbn [Series.of_list map fold_left].
  assert (E : Series.fmax2 (Fin a) (Fin x) = Fin (qmax2 a x)).
  { unfold Series.fmax2, qmax2. destruct (fgt (Fin x) (Fin a)); reflexivity. }
  rewrite E. apply IH.
Qed.

Lemma max_of_list (x : Q) (l : list Q) :
  Series.max (Series.of_list (x :: l)) = Fin (fold_left qmax2 l x).
Proof.
  unfold Series.max. rewrite dropna_of_list.
  cbn [Series.of_list map]. apply fold_fmax2_of_list.
Qed.

Lemma qmax2_same (x : Q) : qmax2 x x = x.
Proof.
  unfold qmax2. destruct (fgt (Fin x) (Fin x)); reflexivity.
Qed.

Lemma fold_qmax2_ge (l : list Q) (a : Q) : a <= fold_left qmax2 l a.
Proof.
  revert a. induction l as [|x l IH]; intros a; simpl; [lra|].
  pose proof (qmax2_ge a x) as [H _]. specialize (IH (qmax2 a x)). lra.
Qed.

Lemma drawdown_column_last (l : list Q) (a : Q) (d : pyfloat) :
  l <> [] ->
  last (Series.map2 fdiv
          (Series.map2 fsub (Series.of_list l)
                       (Series.of_list (running_max_from (Some a) l)))
          (Series.of_list (running_max_from (Some a) l)))
       d
  = fdiv (fsub (Fin (last l 0)) (Fin (fold_left qmax2 l a)))
         (Fin (fold_left qmax2 l a)).
Proof.
  revert a. induction l as [|y l IH]; intros a Hne; [congruence|].
  destruct l as [|z l].
  - reflexivity.
  - cbn [running_max_from Series.of_list map Series.map2].
    cbn [running_max_from Series.of_list map Series.map2] in IH.
    specialize (IH (qmax2 a y)).
    change (last (y :: z :: l) 0) with (last (z :: l) 0).
    change (fold_left qmax2 (y :: z :: l) a)
      with (fold_left qmax2 (z :: l) (qmax2 a y)).
    rewrite <- IH by discriminate. reflexivity.
Qed.

(** X26.  On the same curve of positive equity values, the
    [current_drawdown] of [get_risk_status] is the magnitude of the last
    drawdown that [get_drawdown_data] reports. *)
Theorem current_drawdown_is_last_drawdown
  (file : option PortfolioState) (risk_config : dict)
  (equity_curve : list EquityPoint) :
  equity_curve <> [] ->
  Forall (fun p => 0 < equity p) equity_curve ->
  field (DashboardDataLoader.get_risk_status file risk_config equity_curve)
        "current_drawdown"
  = Some (VNum (fabs (last (map snd (DashboardDataLoader.get_drawdown_data
                                       equity_curve))
                           NaN))).
Proof.
  intros Hne Hpos. destruct equity_curve as [|p ps]; [congruence|].
  rewrite get_risk_status_record.
  cbn [field get String.eqb Ascii.eqb Bool.eqb].
  destruct (get_drawdown_data_columns p ps) as [_ Hs]. rewrite Hs.
  unfold current_drawdown_of. cbn [map].
  rewrite max_of_list.
  inversion Hpos as [|? ? Hp _]; subst.
  pose proof (fold_qmax2_ge (map equity ps) (equity p)) as Hge.
  assert (G : fgt (Fin (fold_left qmax2 (map equity ps) (equity p))) (Fin 0)
              = true) by (apply fgt_Fin; lra).
  rewrite G.
  assert (E : running_max_from None (equity p :: map equity ps)
              = running_max_from (Some (equity p)) (equity p :: map equity ps)).
  { cbn [running_max_from]. rewrite qmax2_same. reflexivity. }
  rewrite E, drawdown_column_last by discriminate.
  cbn [fold_left]. rewrite qmax2_same. reflexivity.
Qed.

Lemma current_drawdown_is_last_drawdown_witness :
  field (DashboardDataLoader.get_risk_status None [] (points [100; 120; 90]))
        "current_drawdown"
  = Some (VNum (fabs (last (map snd (DashboardDataLoader.get_drawdown_data
                                       (points [100; 120; 90])))
                           NaN))).
Proof.
  apply current_drawdown_is_last_drawdown; [discriminate|].
  repeat constructor.
Defined.

(** ** [get_trade_history] *)

Section TradeHistory.

Variable to_datetime : string -> option Q.

Lemma parse_dates_some (trades : list Trade) :
  Exists (fun t => to_datetime (trade_date t) = None) trades ->
  DashboardDataLoader.parse_dates to_datetime trades = None.
Proof.
  induction 1 as [t trades Ht | t trades _ IH];
    cbn [DashboardDataLoader.parse_dates].
  - rewrite Ht. reflexivity.
  - rewrite IH. destruct (to_datetime (trade_date t)); reflexivity.
Qed.

Lemma subsequence_empty {A : Type} (m : list A) : subsequence [] m.
Proof. induction m; constructor; assumption. Qed.

Lemma subsequence_refl {A : Type} (m : list A) : subsequence m m.
Proof. induction m; constructor; assumption. Qed.

Lemma subsequence_filter_map {A B : Type} (f : A -> bool) (g : A -> B)
  (l : list A) :
  subsequence (map g (filter f l)) (map g l).
Proof.
  induction l as [|a l IH]; cbn [filter map]; [constructor|].
  destruct (f a); cbn [map]; constructor; exact IH.
Qed.

Lemma parse_dates_rows (trades : list Trade) (df : list (Q * Trade)) :
  DashboardDataLoader.parse_dates to_datetime trades = Some df ->
  map snd df = trades.
Proof.
  revert df. induction trades as [|t trades IH]; intros df H.
  - injection H as <-. reflexivity.
  - cbn [DashboardDataLoader.parse_dates] in H.
    destruct (to_datetime (trade_date t)) as [d|]; [|discriminate H].
    destruct (DashboardDataLoader.parse_dates to_datetime trades) as [df'|];
      [|discriminate H].
    injection H as <-. cbn [map snd]. rewrite (IH df' eq_refl). reflexivity.
Qed.

(** X27.  [get_trade_history] invents and reorders nothing: what it
    returns is the trades of the file with some of them left out, in file
    order; and without a positive [days] it leaves out all of them or
    none. *)
Theorem get_trade_history_rows
  (trades : list Trade) (now : Q) (days : option nat) :
  subsequence
    (DashboardDataLoader.get_trade_history
       to_datetime (Some (Some trades)) now days)
    trades
  /\ (days = None \/ days = Some 0%nat ->
      DashboardDataLoader.get_trade_history
        to_datetime (Some (Some trades)) now days = []
      \/ DashboardDataLoader.get_trade_history
           to_datetime (Some (Some trades)) now days = trades).
Proof.
  unfold DashboardDataLoader.get_trade_history.
  destruct trades as [|t l]; [split; [constructor | left; reflexivity]|].
  cbn [is_nil negb].
  destruct (DashboardDataLoader.parse_dates to_datetime (t :: l)) as [df|] eqn:E.
  - apply parse_dates_rows in E. rewrite <- E. split.
    + destruct days as [[|n]|].
      * apply subsequence_refl.
      * apply (subsequence_filter_map
                 (fun r => Qle_bool (now - inject_Z (Z.of_nat (S n))) (fst r))).
      * apply subsequence_refl.
    + intros [-> | ->]; right; reflexivity.
  - split; [apply subsequence_empty | left; reflexivity].
Qed.

(** X28.  One trade whose date does not parse empties the whole history:
    the conversion raises, the exception is caught, and [get_trade_history]
    returns the empty frame, as it does for a missing or unreadable file. *)
Theorem get_trade_history_bad_date
  (trades : list Trade) (now : Q) (days : option nat) :
  Exists (fun t => to_datetime (trade_date t) = None) trades ->
  DashboardDataLoader.get_trade_history to_datetime (Some (Some trades)) now days
  = []
  /\ DashboardDataLoader.get_trade_history to_datetime (Some None) now days = []
  /\ DashboardDataLoader.get_trade_history to_datetime None now days = [].
Proof.
  intros H. split; [|split; reflexivity].
  unfold DashboardDataLoader.get_trade_history.
  rewrite (parse_dates_some trades H).
  destruct (negb (is_nil trades)); reflexivity.
Qed.

End TradeHistory.

Lemma get_trade_history_bad_date_witness :
  DashboardDataLoader.get_trade_history
    scenario_to_datetime (Some (Some DashboardDataLoader.get_demo_trade_history))
    21 None
  = [].
Proof.
  apply (get_trade_history_bad_date scenario_to_datetime).
  do 3 apply Exists_cons_tl. apply Exists_cons_hd. reflexivity.
Defined.
